(** * fortranmagic: the [%%fortran] cell magic and its f2py invocation

    A shallow embedding of [src/fortranmagic.py] (class [FortranMagics]):
    the translation of the parsed options into f2py flags, the naming of a
    cell by the MD5 digest of its key, the call of the f2py entry point under
    a changed [sys.argv] and working directory, and the injection of the
    loaded module into the user namespace.

    The module runs on Python 2 only (it tests [isinstance(v, basestring)]),
    so the library functions it calls are modelled with their Python 2
    behaviour. The f2py entry point and the loader of extension modules are
    parameters of the development (class [Toolchain]): the entry point is any
    function of the state of the process, which it may change at will. The
    parsing of the magic's line by [argparse] is not modelled; [fortran]
    starts from the parsed options.

    The methods are embedded twice. The first embedding is the methods on a
    file system that lets the process enter every directory and write every
    file. Module [Fs] is the methods on a file system that can refuse:
    [os.chdir] and [io.open] raise there, and the entry point may change
    what the file system allows. The two agree when nothing is refused
    ([Fs_plain_run_f2py], [Fs_plain_fortran]). What depends on these
    failures, the restoring of the working directory, the entering of the
    entry point and the condition for [fortran] to return, is stated on
    [Fs]. *)

From Stdlib Require Import ZArith List String Ascii DecimalString.
From stdpp Require Import gmap strings list fin_maps.

Local Open Scope string_scope.
Local Open Scope Z_scope.
Local Open Scope list_scope.

(** ** Python string primitives used by the module *)

Module Py.

(** [s.startswith(prefix)] *)
Fixpoint startswith (s prefix : string) : bool :=
  match prefix, s with
  | EmptyString, _ => true
  | String _ _, EmptyString => false
  | String p prefix', String c s' =>
      if decide (c = p) then startswith s' prefix' else false
  end.

(** [s.endswith("\n")], the only use of [endswith] in the module. *)
Fixpoint endswith_nl (s : string) : bool :=
  match s with
  | EmptyString => false
  | String c EmptyString => if decide (c = "010"%char) then true else false
  | String _ s' => endswith_nl s'
  end.

(** [sep.join(l)] *)
Fixpoint join (sep : string) (l : list string) : string :=
  match l with
  | [] => ""
  | [x] => x
  | x :: l' => x +:+ sep +:+ join sep l'
  end.

(** [needle in s] on strings. *)
Fixpoint contains (s needle : string) : bool :=
  startswith s needle ||
  match s with
  | EmptyString => false
  | String _ s' => contains s' needle
  end.

(** [str(n)] for an integer. *)
Definition str_int (n : Z) : string := NilZero.string_of_int (Z.to_int n).

Definition hex_digit (n : Z) : ascii :=
  if n <? 10 then ascii_of_N (Z.to_N (48 + n)) else ascii_of_N (Z.to_N (87 + n)).

Definition code (c : ascii) : Z := Z.of_N (N_of_ascii c).

(** One character of [repr] of a string whose quote character is [q]:
    the quote and the backslash are escaped, tab, newline and carriage
    return get their letter, and every other character outside the
    printable ASCII range is written [\xhh]. *)
Definition repr_char (q c : ascii) : string :=
  let n := code c in
  if decide (c = q) then String "\" (String c "")
  else if decide (c = "\"%char) then "\\"
  else if n =? 9 then "\t"
  else if n =? 10 then "\n"
  else if n =? 13 then "\r"
  else if (n <? 32) || (127 <=? n)
       then String "\" (String "x" (String (hex_digit (n / 16))
                                       (String (hex_digit (n mod 16)) "")))
  else String c "".

Fixpoint repr_body (q : ascii) (s : string) : string :=
  match s with
  | EmptyString => ""
  | String c s' => repr_char q c +:+ repr_body q s'
  end.

(** The quote [repr] chooses: the double quote when the string holds a
    single quote and no double quote, the single quote otherwise. *)
Definition repr_quote (s : string) : ascii :=
  if contains s "'" && negb (contains s (String "034"%char ""))
  then "034"%char else "'"%char.

(** [repr(s)] for a byte string ([str]). *)
Definition repr_str (s : string) : string :=
  let q := repr_quote s in
  String q (repr_body q s +:+ String q "").

(** [repr(s)] for a text string ([unicode]); the characters of the model
    are the code points below 256. *)
Definition repr_unicode (s : string) : string := "u" +:+ repr_str s.

(** [os.path.join(a, b)] of [posixpath]. *)
Definition endswith_slash (s : string) : bool :=
  match rev (list_ascii_of_string s) with
  | c :: _ => if decide (c = "/"%char) then true else false
  | [] => false
  end.

Definition os_path_join (a b : string) : string :=
  if startswith b "/" then b
  else if decide (a = "") then b
  else if endswith_slash a then a +:+ b
  else a +:+ "/" +:+ b.

End Py.

(** ** [hashlib.md5(data).hexdigest()] (RFC 1321), on 32-bit words in [Z] *)

Module Md5.

Definition mask32 : Z := 4294967295.
Definition w32 (x : Z) : Z := Z.land x mask32.
Definition add32 (x y : Z) : Z := w32 (x + y).
Definition not32 (x : Z) : Z := Z.lxor x mask32.
Definition rotl32 (x n : Z) : Z :=
  Z.lor (w32 (Z.shiftl x n)) (Z.shiftr x (32 - n)).

Definition S : list Z :=
  [7; 12; 17; 22; 7; 12; 17; 22; 7; 12; 17; 22; 7; 12; 17; 22;
   5; 9; 14; 20; 5; 9; 14; 20; 5; 9; 14; 20; 5; 9; 14; 20;
   4; 11; 16; 23; 4; 11; 16; 23; 4; 11; 16; 23; 4; 11; 16; 23;
   6; 10; 15; 21; 6; 10; 15; 21; 6; 10; 15; 21; 6; 10; 15; 21].

Definition K : list Z :=
  [3614090360; 3905402710; 606105819; 3250441966;
   4118548399; 1200080426; 2821735955; 4249261313;
   1770035416; 2336552879; 4294925233; 2304563134;
   1804603682; 4254626195; 2792965006; 1236535329;
   4129170786; 3225465664; 643717713; 3921069994;
   3593408605; 38016083; 3634488961; 3889429448;
   568446438; 3275163606; 4107603335; 1163531501;
   2850285829; 4243563512; 1735328473; 2368359562;
   4294588738; 2272392833; 1839030562; 4259657740;
   2763975236; 1272893353; 4139469664; 3200236656;
   681279174; 3936430074; 3572445317; 76029189;
   3654602809; 3873151461; 530742520; 3299628645;
   4096336452; 1126891415; 2878612391; 4237533241;
   1700485571; 2399980690; 4293915773; 2240044497;
   1873313359; 4264355552; 2734768916; 1309151649;
   4149444226; 3174756917; 718787259; 3951481745].

Definition nthZ (l : list Z) (i : Z) : Z := nth (Z.to_nat i) l 0.

(** Little-endian bytes of a word, and back. *)
Fixpoint le_bytes (n : nat) (x : Z) : list Z :=
  match n with
  | O => []
  | Datatypes.S n' => Z.land x 255 :: le_bytes n' (Z.shiftr x 8)
  end.

Fixpoint le_word (bs : list Z) : Z :=
  match bs with
  | [] => 0
  | b :: bs' => Z.lor b (Z.shiftl (le_word bs') 8)
  end.

(** The message followed by the bit 1, zero bytes up to 56 modulo 64, and
    its length in bits on 64 bits. *)
Definition pad (msg : list Z) : list Z :=
  let len := Z.of_nat (length msg) in
  let zeros := (55 - len) mod 64 in
  msg ++ 128 :: repeat 0 (Z.to_nat zeros) ++ le_bytes 8 (8 * len).

Fixpoint words (n : nat) (bs : list Z) : list Z :=
  match n with
  | O => []
  | Datatypes.S n' => le_word (take 4 bs) :: words n' (drop 4 bs)
  end.

Definition round (M : list Z) (st : Z * Z * Z * Z) (i : Z) : Z * Z * Z * Z :=
  let '(A, B, C, D) := st in
  let '(F, g) :=
    if i <? 16 then (Z.lor (Z.land B C) (Z.land (not32 B) D), i)
    else if i <? 32 then (Z.lor (Z.land D B) (Z.land (not32 D) C), (5 * i + 1) mod 16)
    else if i <? 48 then (Z.lxor (Z.lxor B C) D, (3 * i + 5) mod 16)
    else (Z.lxor C (Z.lor B (not32 D)), (7 * i) mod 16) in
  let F' := add32 (add32 (add32 F A) (nthZ K i)) (nthZ M g) in
  (D, add32 B (rotl32 F' (nthZ S i)), B, C).

Definition block (h : Z * Z * Z * Z) (chunk : list Z) : Z * Z * Z * Z :=
  let M := words 16 chunk in
  let '(a0, b0, c0, d0) := h in
  let '(A, B, C, D) := fold_left (round M) (map Z.of_nat (seq 0 64)) h in
  (add32 a0 A, add32 b0 B, add32 c0 C, add32 d0 D).

Fixpoint blocks (n : nat) (h : Z * Z * Z * Z) (bs : list Z) : Z * Z * Z * Z :=
  match n with
  | O => h
  | Datatypes.S n' => blocks n' (block h (take 64 bs)) (drop 64 bs)
  end.

Definition digest (msg : list Z) : list Z :=
  let p := pad msg in
  let '(a, b, c, d) :=
    blocks (length p / 64) (1732584193, 4023233417, 2562383102, 271733878) p in
  le_bytes 4 a ++ le_bytes 4 b ++ le_bytes 4 c ++ le_bytes 4 d.

Fixpoint hex (bs : list Z) : string :=
  match bs with
  | [] => ""
  | b :: bs' => String (Py.hex_digit (b / 16)) (String (Py.hex_digit (b mod 16)) (hex bs'))
  end.

Definition hexdigest (data : string) : string :=
  hex (digest (map Py.code (list_ascii_of_string data))).

End Md5.

(** ** Values, exceptions and results *)

(** The line feed; [nl] is the string ["\n"] of the Python source. *)
Definition nl : string := String "010"%char "".

(** The values an attribute of the parsed [argparse] namespace holds. *)
Inductive value :=
| VNone
| VBool (b : bool)
| VInt (n : Z)
| VStr (s : string)
| VList (l : list string).

(** The argument of a [SystemExit]: an exit status or a message. *)
Inductive exit_value :=
| ExitCode (n : Z)
| ExitMsg (s : string).

Inductive exn :=
| UsageError (msg : string)
| SystemExit (arg : option exit_value)
| OtherError (name msg : string).

Inductive result (A : Type) :=
| Ok (a : A)
| Raise (e : exn).
Arguments Ok {A} a.
Arguments Raise {A} e.

(** [str(e)] for [e] a [SystemExit]. *)
Definition str_SystemExit (arg : option exit_value) : string :=
  match arg with
  | None => ""
  | Some (ExitCode n) => Py.str_int n
  | Some (ExitMsg s) => s
  end.


(** An object found in a loaded extension module. *)
Inductive pyobj :=
| PyFortran (name : string)
| PyStr (s : string)
| PyNone.

(** ** The parsed options of [%%fortran] (the [arguments] decorator) *)

Record Namespace := mkNamespace {
  verbosity : Z;
  fcompiler : option string;
  compiler : option string;
  f90flags : option string;
  f77flags : option string;
  opt : option string;
  arch : option string;
  noopt : bool;
  noarch : bool;
  debug : bool;
  link : list string
}.

Definition opt_value (o : option string) : value :=
  match o with
  | Some s => VStr s
  | None => VNone
  end.

(** The attributes of the namespace in the order of their declaration. *)
Definition attributes (args : Namespace) : list (string * value) :=
  [("verbosity", VInt (verbosity args));
   ("fcompiler", opt_value (fcompiler args));
   ("compiler", opt_value (compiler args));
   ("f90flags", opt_value (f90flags args));
   ("f77flags", opt_value (f77flags args));
   ("opt", opt_value (opt args));
   ("arch", opt_value (arch args));
   ("noopt", VBool (noopt args));
   ("noarch", VBool (noarch args));
   ("debug", VBool (debug args));
   ("link", VList (link args))].

(** [vars(args)], a dictionary. *)
Definition vars (args : Namespace) : gmap string value :=
  list_to_map (attributes args).

(** [v is True] *)
Definition is_True (v : value) : bool :=
  match v with
  | VBool true => true
  | _ => false
  end.

(** [isinstance(v, basestring)] *)
Definition is_basestring (v : value) : bool :=
  match v with
  | VStr _ => true
  | _ => false
  end.

(** ['%s' % v] for the values that pass [is_basestring]. *)
Definition str_value (v : value) : string :=
  match v with
  | VStr s => s
  | _ => ""
  end.

(** Lines 238-247 of [fortran]: the f2py flags of the parsed options.
    [items] is [vars(args).items()]. *)
Definition f2py_args (args : Namespace) : list string :=
  let items := map_to_list (vars args) in
  (* boolean flags *)
  let f2py_args := (λ kv, "--" +:+ kv.1) <$> filter (λ kv, is_True kv.2) items in
  let kw := (λ kv, "--" +:+ kv.1 +:+ "=" +:+ str_value kv.2)
              <$> filter (λ kv, is_basestring kv.2) items in
  let f2py_args := f2py_args ++ kw in
  (* link resources *)
  match link args with
  | [] => f2py_args
  | _ :: _ => f2py_args ++ ((λ r, "--link-" +:+ r) <$> link args)
  end.

(** The tokens of the translator's contract: [--name] for a flag that is
    set, [--name=value] for an option that is given. *)
Definition flag_token (name : string) (b : bool) : list string :=
  if b then ["--" +:+ name] else [].

Definition option_token (name : string) (o : option string) : list string :=
  match o with
  | Some v => ["--" +:+ name +:+ "=" +:+ v]
  | None => []
  end.

Definition link_token (r : string) : string := "--link-" +:+ r.

(** ** The key of a cell and the name of its module *)

Record version_info := mkVersionInfo {
  major : Z;
  minor : Z;
  micro : Z;
  releaselevel : string;
  serial : Z
}.

Global Instance version_info_eq_dec : EqDecision version_info.
Proof. solve_decision. Defined.

Global Instance version_info_countable : Countable version_info.
Proof.
  refine (inj_countable'
            (λ v, (major v, minor v, micro v, releaselevel v, serial v))
            (λ t, let '(a, b, c, d, e) := t in mkVersionInfo a b c d e) _).
  intros []; reflexivity.
Defined.

(** [repr(sys.version_info)] *)
Definition repr_version_info (v : version_info) : string :=
  "sys.version_info(major=" +:+ Py.str_int (major v)
  +:+ ", minor=" +:+ Py.str_int (minor v)
  +:+ ", micro=" +:+ Py.str_int (micro v)
  +:+ ", releaselevel=" +:+ Py.repr_str (releaselevel v)
  +:+ ", serial=" +:+ Py.str_int (serial v) +:+ ")".

(** The tuple [code, sys.version_info, sys.executable, f2py2e.f2py_version]. *)
Definition cache_key : Type := string * version_info * string * string.

(** [str(key)]: the [repr] of a tuple. *)
Definition str_key (key : cache_key) : string :=
  let '(code, vi, exe, ver) := key in
  "(" +:+ Py.repr_unicode code +:+ ", " +:+ repr_version_info vi +:+ ", "
  +:+ Py.repr_str exe +:+ ", " +:+ Py.repr_str ver +:+ ")".

(** Line 249: the cell with a final line feed. *)
Definition code_of_cell (cell : string) : string :=
  if Py.endswith_nl cell then cell else cell +:+ nl.

(** The hexadecimal digest of lines 252-253; [str(key)] is ASCII, so its
    UTF-8 encoding is itself. *)
Definition fingerprint (key : cache_key) : string :=
  Md5.hexdigest (str_key key).

Definition module_name_of (key : cache_key) : string :=
  "_fortran_magic_" +:+ fingerprint key.

(** ** The process, the magics object and the toolchain *)

(** The globals of the process the module reads and writes, the files of
    the file system (path to text) and the text shown on the two output
    streams. *)
Record Proc := mkProc {
  sys_argv : list string;
  cwd : string;
  files : gmap string string;
  sys_stdout : string;
  sys_stderr : string
}.

(** What [capture_output()] holds when its block ends. *)
Record captured := mkCaptured {
  cap_stdout : string;
  cap_stderr : string
}.

(** The [FortranMagics] instance: its cache, the cache directory, the
    suffix of compiled modules ([so_ext]) and the user namespace of its
    shell. *)
Record FortranMagics := mkMagics {
  _code_cache : gmap cache_key string;
  _lib_dir : string;
  so_ext : string;
  shell_user_ns : gmap string pyobj
}.

(** The interpreter and the libraries the module calls into:
    [f2py2e.main()], which reads [sys.argv] and may write files, change the
    globals, print and raise, and [imp.load_dynamic], which yields the
    dictionary of the loaded module. *)
Class Toolchain := {
  sys_version_info : version_info;
  sys_executable : string;
  f2py_version : string;
  f2py2e_main : Proc → result unit * captured * Proc;
  imp_load_dynamic : string → string → Proc → result (gmap string pyobj)
}.

(** The state of a session; [f2py_calls] records, for each entry into
    [f2py2e.main()], the [sys.argv] and the working directory it found. *)
Record State := mkState {
  proc : Proc;
  self : FortranMagics;
  f2py_calls : list (list string * string)
}.

(** [__init__]: empty cache, cache directory [<ipython cache>/fortran]. *)
Definition __init__ (ipython_cache_dir ext : string) (ns : gmap string pyobj) : FortranMagics :=
  {| _code_cache := ∅;
     _lib_dir := Py.os_path_join ipython_cache_dir "fortran";
     so_ext := ext;
     shell_user_ns := ns |}.

(** ** A state and exception monad for the methods *)

Definition M (A : Type) : Type := State → result A * State.

Global Instance M_ret : MRet M := λ A a s, (Ok a, s).

Global Instance M_bind : MBind M := λ A B f m s,
  match m s with
  | (Ok a, s') => f a s'
  | (Raise e, s') => (Raise e, s')
  end.

Definition raise {A} (e : exn) : M A := λ s, (Raise e, s).
Definition gets {A} (f : State → A) : M A := λ s, (Ok (f s), s).
Definition modify (f : State → State) : M unit := λ s, (Ok tt, f s).
Definition when (b : bool) (m : M unit) : M unit := if b then m else mret tt.

(** [try: body finally: fin] *)
Definition try_finally {A} (body : M A) (fin : M unit) : M A := λ s,
  let '(r, s1) := body s in
  match fin s1 with
  | (Ok _, s2) => (r, s2)
  | (Raise e, s2) => (Raise e, s2)
  end.

Definition with_proc (f : Proc → Proc) (s : State) : State :=
  {| proc := f (proc s); self := self s; f2py_calls := f2py_calls s |}.

Definition with_self (f : FortranMagics → FortranMagics) (s : State) : State :=
  {| proc := proc s; self := f (self s); f2py_calls := f2py_calls s |}.

(** [sys.argv = v]. The global is bound to a list; line 157 binds it to a
    new one, so what the entry point does to [sys.argv], in place or by
    assignment, does not reach the list [old_argv] refers to. *)
Definition set_sys_argv (v : list string) : M unit :=
  modify (with_proc (λ p, mkProc v (cwd p) (files p) (sys_stdout p) (sys_stderr p))).

(** [os.getcwd()], and [os.chdir(d)] for a directory that can be entered;
    [Fs.os_chdir] has the [OSError] of one that cannot. *)
Definition os_getcwd : M string := gets (λ s, cwd (proc s)).

Definition os_chdir (d : string) : M unit :=
  modify (with_proc (λ p, mkProc (sys_argv p) d (files p) (sys_stdout p) (sys_stderr p))).

Definition write_stdout (t : string) : M unit :=
  modify (with_proc (λ p, mkProc (sys_argv p) (cwd p) (files p)
                            (sys_stdout p +:+ t) (sys_stderr p))).

Definition write_stderr (t : string) : M unit :=
  modify (with_proc (λ p, mkProc (sys_argv p) (cwd p) (files p)
                            (sys_stdout p) (sys_stderr p +:+ t))).

(** [print(t)] *)
Definition print (t : string) : M unit := write_stdout (t +:+ nl).

(** [with io.open(path, 'w', encoding='utf-8') as f: f.write(text)] for a
    path that can be opened; [Fs.io_write] has the [IOError] of one that
    cannot. *)
Definition io_write (path text : string) : M unit :=
  modify (with_proc (λ p, mkProc (sys_argv p) (cwd p) (<[path := text]> (files p))
                            (sys_stdout p) (sys_stderr p))).

(** [captured()]: the captured text is replayed on the output streams. *)
Definition show (c : captured) : M unit :=
  write_stdout (cap_stdout c);; write_stderr (cap_stderr c).

(** [self.shell.push({k: v})] *)
Definition shell_push (k : string) (v : pyobj) : M unit :=
  modify (with_self (λ m, mkMagics (_code_cache m) (_lib_dir m) (so_ext m)
                            (<[k := v]> (shell_user_ns m)))).

(** [self._code_cache[key] = name] *)
Definition cache_store (key : cache_key) (name : string) : M unit :=
  modify (with_self (λ m, mkMagics (<[key := name]> (_code_cache m)) (_lib_dir m)
                            (so_ext m) (shell_user_ns m))).

Section Methods.
Context `{Toolchain}.

(** [with capture_output() as captured: f2py2e.main()]: what the entry
    point did, with the text it printed held back. *)
Definition captured_f2py2e_main : M (result unit * captured) := λ s,
  let '(r, c, p') := f2py2e_main (proc s) in
  (Ok (r, c),
   {| proc := p'; self := self s;
      f2py_calls := f2py_calls s ++ [(sys_argv (proc s), cwd (proc s))] |}).

(** [imp.load_dynamic(name, path)] *)
Definition load_dynamic (name path : string) : M (gmap string pyobj) := λ s,
  (imp_load_dynamic name path (proc s), s).

(** A name is public when it does not start with two underscores. *)
Definition public (k : string) : bool := negb (Py.startswith k "__").

(** The public names of a module, in the order of [module.__dict__]. *)
Definition public_names (module : gmap string pyobj) : list string :=
  filter (λ k, public k) (map_to_list module).*1.

(** The loop of [_import_all] over [module.__dict__.items()]. *)
Fixpoint import_items (items : list (string * pyobj)) (imported : list string)
  : M (list string) :=
  match items with
  | [] => mret imported
  | (k, v) :: items' =>
      if public k
      then shell_push k v;; import_items items' (imported ++ [k])
      else import_items items' imported
  end.

Definition _import_all (module : gmap string pyobj) (verbosity : Z) : M unit :=
  imported ← import_items (map_to_list module) [];
  when ((0 <? verbosity) && bool_decide (imported ≠ []))
       (print (nl +:+ "Ok. The following fortran objects are ready to use: "
               +:+ Py.join ", " imported)).

(** The statements of [_run_f2py] before the entry point is called.
    [str] of an argument is the argument: they are all strings. *)
Definition f2py_setup (argv : list string) (verbosity : Z) : M unit :=
  set_sys_argv ("f2py" :: argv);;
  (argv' ← gets (λ s, sys_argv (proc s));
   when (1 <? verbosity) (print ("Running..." +:+ nl +:+ "   " +:+ Py.join " " argv')));;
  lib_dir ← gets (λ s, _lib_dir (self s));
  os_chdir lib_dir.

(** The inner [try ... except SystemExit as e] of [_run_f2py]. *)
Definition f2py_guarded (show_captured : bool) (verbosity : Z) : M unit :=
  '(r, captured) ← captured_f2py2e_main;
  match r with
  | Ok _ => when (show_captured || (2 <? verbosity)) (show captured)
  | Raise (SystemExit e) => show captured;; raise (UsageError (str_SystemExit e))
  | Raise other => raise other
  end.

Definition _run_f2py (argv : list string) (show_captured : bool) (verbosity : Z)
  : M unit :=
  old_argv ← gets (λ s, sys_argv (proc s));
  old_cwd ← os_getcwd;
  try_finally
    (f2py_setup argv verbosity;; f2py_guarded show_captured verbosity)
    (set_sys_argv old_argv;; os_chdir old_cwd).

(** The state of the process in which [_run_f2py] enters [f2py2e.main()]. *)
Definition f2py_entry (argv : list string) (verbosity : Z) (s : State) : Proc :=
  proc (f2py_setup argv verbosity s).2.

(** What [_run_f2py] answers for an outcome of the entry point, and
    whether it replays the captured text. *)
Definition outcome_of (r : result unit) : result unit :=
  match r with
  | Ok _ => Ok tt
  | Raise (SystemExit e) => Raise (UsageError (str_SystemExit e))
  | Raise other => Raise other
  end.

Definition replays (r : result unit) (show_captured : bool) (verbosity : Z) : bool :=
  match r with
  | Ok _ => show_captured || (2 <? verbosity)
  | Raise (SystemExit _) => true
  | Raise _ => false
  end.

(** The key, the module name and the two paths of a cell. *)
Definition key_of (cell : string) : cache_key :=
  (code_of_cell cell, sys_version_info, sys_executable, f2py_version).

Definition module_name (cell : string) : string := module_name_of (key_of cell).

Definition f90_file (lib_dir cell : string) : string :=
  Py.os_path_join lib_dir (module_name cell +:+ ".f90").

Definition module_path (lib_dir ext cell : string) : string :=
  Py.os_path_join lib_dir (module_name cell +:+ ext).

(** The arguments [fortran] hands to [_run_f2py]. *)
Definition fortran_argv (lib_dir : string) (args : Namespace) (cell : string)
  : list string :=
  f2py_args args ++ ["-m"; module_name cell; "-c"; f90_file lib_dir cell].

(** The [%%fortran] cell magic on the parsed options [args]. *)
Definition fortran (args : Namespace) (cell : string) : M unit :=
  let code := code_of_cell cell in
  let key := key_of cell in
  let module_name := module_name cell in
  lib_dir ← gets (λ s, _lib_dir (self s));
  ext ← gets (λ s, so_ext (self s));
  let module_path := module_path lib_dir ext cell in
  let f90_file := f90_file lib_dir cell in
  io_write f90_file code;;
  _run_f2py (fortran_argv lib_dir args cell) false (verbosity args);;
  cache_store key module_name;;
  module ← load_dynamic module_name module_path;
  _import_all module (verbosity args).

(** The state of the process in which [fortran] enters [f2py2e.main()]:
    the source file is written and [_run_f2py] has set the globals. *)
Definition driver_entry (args : Namespace) (cell : string) (s : State) : Proc :=
  let lib_dir := _lib_dir (self s) in
  f2py_entry (fortran_argv lib_dir args cell) (verbosity args)
             (io_write (f90_file lib_dir cell) (code_of_cell cell) s).2.

(** [f2py_help] on its parsed options. *)
Definition f2py_help (h_fcompiler h_compiler h_resources : bool)
           (h_link : option string) : M unit :=
  if h_fcompiler then _run_f2py ["-c"; "--help-fcompiler"] true 0
  else if h_compiler then _run_f2py ["-c"; "--help-compiler"] true 0
  else if h_resources then _run_f2py ["--help-link"] true 0
  else match h_link with
       | Some l => if decide (l = "") then mret tt
                   else _run_f2py ["--help-link"; l] true 0
       | None => mret tt
       end.

End Methods.

(** ** Two toolchains to run the methods on *)

Module Sample.

(** The argument that follows [flag] in an argument list. *)
Fixpoint arg_after (flag : string) (argv : list string) : option string :=
  match argv with
  | a :: (b :: _) as rest => if decide (a = flag) then Some b else arg_after flag rest
  | _ => None
  end.

Definition vi : version_info := mkVersionInfo 2 7 6 "final" 0.

(** A loader that finds the module when its file is there: one routine
    named after the file, and the documentation string. *)
Definition loader (name path : string) (p : Proc) : result (gmap string pyobj) :=
  match files p !! path with
  | Some _ => Ok (<["f" := PyFortran "f"]> {["__doc__" := PyStr name]})
  | None => Raise (OtherError "ImportError" path)
  end.

(** A compiler that builds: it writes [<module>.so] in the working
    directory, prints a line and returns. *)
Definition building_main (p : Proc) : result unit * captured * Proc :=
  match arg_after "-m" (sys_argv p) with
  | Some m =>
      (Ok tt, mkCaptured "running build_ext" "",
       mkProc (sys_argv p) (cwd p)
              (<[Py.os_path_join (cwd p) (m +:+ ".so") := "ELF"]> (files p))
              (sys_stdout p) (sys_stderr p))
  | None => (Raise (SystemExit (Some (ExitCode 2))), mkCaptured "" "usage", p)
  end.

(** A compiler that rejects every source: it prints a diagnostic, leaves
    the globals changed and exits with status 1. *)
Definition rejecting_main (p : Proc) : result unit * captured * Proc :=
  (Raise (SystemExit (Some (ExitCode 1))),
   mkCaptured "running build_ext" "Error: Unclassifiable statement",
   mkProc ["setup.py"; "build_ext"] "/tmp/build" (files p)
          (sys_stdout p) (sys_stderr p)).

Definition building : Toolchain :=
  {| sys_version_info := vi; sys_executable := "/usr/bin/python";
     f2py_version := "2"; f2py2e_main := building_main;
     imp_load_dynamic := loader |}.

Definition rejecting : Toolchain :=
  {| sys_version_info := vi; sys_executable := "/usr/bin/python";
     f2py_version := "2"; f2py2e_main := rejecting_main;
     imp_load_dynamic := loader |}.

Definition defaults : Namespace :=
  mkNamespace 0 None None None None None None false false false [].

Definition flags : Namespace :=
  mkNamespace 1 (Some "gnu95") None None None (Some "-O3") None
              true false true ["lapack_opt"; "blas"].

Definition cell : string :=
  "subroutine f(x); integer :: x; x = x + 1; end subroutine".

Definition st0 : State :=
  {| proc := mkProc ["ipython"] "/home/u" ∅ "" "";
     self := __init__ "/home/u/.cache/ipython" ".so" ∅;
     f2py_calls := [] |}.

End Sample.

(** ** The helper [compose], the property [so_ext] and the loader's state *)

(** [compose(a, b, c)(f)]: the loop applies the decorators from the last
    to the first. A decorator is a function on the decorated objects. *)
Definition compose {A : Type} (decors : list (A → A)) (f : A) : A :=
  fold_left (λ f decor, decor f) (rev decors) f.

(** [l.remove(x)]: the list without its first [x]; [None] is the
    [ValueError] of a list that does not hold [x]. *)
Fixpoint list_remove (x : string) (l : list string) : option (list string) :=
  match l with
  | [] => None
  | y :: l' =>
      if decide (y = x) then Some l' else (λ r, y :: r) <$> list_remove x l'
  end.

(** The configuration files [so_ext] lets distutils parse: the files found,
    less ['setup.cfg'] when it is among them. *)
Definition parsed_config_files (found : list string) : list string :=
  match list_remove "setup.cfg" found with
  | Some l => l
  | None => found
  end.

(** The property [so_ext]. [attr] is the attribute [_so_ext], [None] while
    the object does not have it; [found] is what [find_config_files()]
    answers and [ext_filename] what [build_ext] answers to
    [get_ext_filename('')] once the given files are parsed. The result is the
    suffix and the attribute afterwards. *)
Definition so_ext_property (found : list string) (ext_filename : list string → string)
           (attr : option string) : string * option string :=
  match attr with
  | Some ext => (ext, attr)
  | None =>
      let ext := ext_filename (parsed_config_files found) in
      (ext, Some ext)
  end.

(** The state in which [fortran] calls [imp.load_dynamic]: [_run_f2py] has
    returned and the key is stored. *)
Definition load_entry `{Toolchain} (args : Namespace) (cell : string) (s : State)
  : State :=
  let lib_dir := _lib_dir (self s) in
  let s1 := (io_write (f90_file lib_dir cell) (code_of_cell cell) s).2 in
  let s2 := (_run_f2py (fortran_argv lib_dir args cell) false (verbosity args) s1).2 in
  (cache_store (key_of cell) (module_name cell) s2).2.

(** What [imp.load_dynamic] answers to [fortran]. *)
Definition load_result `{Toolchain} (args : Namespace) (cell : string) (s : State)
  : result (gmap string pyobj) :=
  imp_load_dynamic (module_name cell)
    (module_path (_lib_dir (self s)) (so_ext (self s)) cell)
    (proc (load_entry args cell s)).

(** Every entry of the cache maps a key to the module name made from it. *)
Definition cache_consistent (m : FortranMagics) : Prop :=
  ∀ key name, _code_cache m !! key = Some name → name = module_name_of key.


(** The options with another verbosity. *)
Definition with_verbosity (v : Z) (args : Namespace) : Namespace :=
  mkNamespace v (fcompiler args) (compiler args) (f90flags args) (f77flags args)
              (opt args) (arch args) (noopt args) (noarch args) (debug args)
              (link args).

(** The number of tokens the options call for. *)
Definition set_count (args : Namespace) : nat :=
  (length (filter (λ b : bool, b) [noopt args; noarch args; debug args])
   + length (filter (λ o : option string, is_Some o)
               [fcompiler args; compiler args; f90flags args; f77flags args;
                opt args; arch args])
   + length (link args))%nat.

(** Classes of characters. *)
Fixpoint all_chars (P : ascii → bool) (s : string) : bool :=
  match s with
  | EmptyString => true
  | String c s' => P c && all_chars P s'
  end.

Definition is_ascii (c : ascii) : bool := Py.code c <? 128.

Definition is_hex_digit (c : ascii) : bool :=
  let n := Py.code c in
  ((48 <=? n) && (n <=? 57)) || ((97 <=? n) && (n <=? 102)).

(** The characters of a Python identifier written in lower case. *)
Definition is_ident_char (c : ascii) : bool :=
  let n := Py.code c in
  ((48 <=? n) && (n <=? 57)) || ((97 <=? n) && (n <=? 122)) || (n =? 95).

(** ** More toolchains *)

Module Cases.



(** An entry point that returns without building anything: the loader
    then finds no file. *)
Definition idle_main (p : Proc) : result unit * captured * Proc :=
  (Ok tt, mkCaptured "nothing to do" "warning: no sources", p).

Definition idle : Toolchain :=
  {| sys_version_info := Sample.vi; sys_executable := "/usr/bin/python";
     f2py_version := "2"; f2py2e_main := idle_main;
     imp_load_dynamic := Sample.loader |}.

(** Decorators on numbers, to see the order of [compose]. *)
Definition double (n : Z) : Z := 2 * n.
Definition succ (n : Z) : Z := n + 1.

End Cases.

(** ** The methods on a file system that can fail *)

(** The methods above are the methods on a file system that lets the
    process enter every directory and write every file. Here [os.chdir]
    and [io.open] raise when the file system does not let them, and the
    entry point may change what the file system allows. *)
Module Fs.

(** What the file system allows at a moment: the directories [os.chdir]
    can enter and the paths [io.open(path, 'w')] can open. *)
Record FileSystem := mkFs {
  can_enter : string → bool;
  can_write : string → bool
}.

(** A session on a file system; [entered] records the state of the process
    at each entry into [f2py2e.main()]. *)
Record World := mkWorld {
  session : State;
  fs : FileSystem;
  entered : list Proc
}.

(** A toolchain whose entry point sees and changes the file system. *)
Class Host := {
  host_toolchain :: Toolchain;
  f2py2e_main_on : FileSystem → Proc → result unit * captured * Proc * FileSystem
}.

Definition W (A : Type) : Type := World → result A * World.

#[global] Instance W_ret : MRet W := λ A a w, (Ok a, w).

#[global] Instance W_bind : MBind W := λ A B f m w,
  match m w with
  | (Ok a, w') => f a w'
  | (Raise e, w') => (Raise e, w')
  end.

(** A statement that does not touch the file system. *)
Definition lift {A} (m : M A) : W A := λ w,
  let '(r, s) := m (session w) in (r, mkWorld s (fs w) (entered w)).

(** [try: body finally: fin] *)
Definition try_finally {A} (body : W A) (fin : W unit) : W A := λ w,
  let '(r, w1) := body w in
  match fin w1 with
  | (Ok _, w2) => (r, w2)
  | (Raise e, w2) => (Raise e, w2)
  end.

(** [os.chdir(d)]: [OSError] when the directory cannot be entered. *)
Definition os_chdir (d : string) : W unit := λ w,
  if can_enter (fs w) d then lift (os_chdir d) w
  else (Raise (OtherError "OSError" d), w).

(** [with io.open(path, 'w', encoding='utf-8') as f: f.write(text)]:
    [IOError] when the file cannot be opened, and nothing is written. *)
Definition io_write (path text : string) : W unit := λ w,
  if can_write (fs w) path then lift (io_write path text) w
  else (Raise (OtherError "IOError" path), w).

Section Methods.
Context `{Host}.

(** [with capture_output() as captured: f2py2e.main()] *)
Definition captured_f2py2e_main : W (result unit * captured) := λ w,
  let s := session w in
  let '(r, c, p', fs') := f2py2e_main_on (fs w) (proc s) in
  (Ok (r, c),
   mkWorld {| proc := p'; self := self s;
              f2py_calls := f2py_calls s ++ [(sys_argv (proc s), cwd (proc s))] |}
           fs' (entered w ++ [proc s])).

(** The statements of [_run_f2py] before the entry point is called. *)
Definition f2py_setup (argv : list string) (verbosity : Z) : W unit :=
  lift (set_sys_argv ("f2py" :: argv));;
  (argv' ← lift (gets (λ s, sys_argv (proc s)));
   lift (when (1 <? verbosity)
           (print ("Running..." +:+ nl +:+ "   " +:+ Py.join " " argv'))));;
  lib_dir ← lift (gets (λ s, _lib_dir (self s)));
  os_chdir lib_dir.

(** The inner [try ... except SystemExit as e] of [_run_f2py]. *)
Definition f2py_guarded (show_captured : bool) (verbosity : Z) : W unit :=
  '(r, captured) ← captured_f2py2e_main;
  match r with
  | Ok _ => lift (when (show_captured || (2 <? verbosity)) (show captured))
  | Raise (SystemExit e) =>
      lift (show captured);; lift (raise (UsageError (str_SystemExit e)))
  | Raise other => lift (raise other)
  end.

Definition _run_f2py (argv : list string) (show_captured : bool) (verbosity : Z)
  : W unit :=
  old_argv ← lift (gets (λ s, sys_argv (proc s)));
  old_cwd ← lift os_getcwd;
  try_finally
    (f2py_setup argv verbosity;; f2py_guarded show_captured verbosity)
    (lift (set_sys_argv old_argv);; os_chdir old_cwd).

Definition fortran (args : Namespace) (cell : string) : W unit :=
  let code := code_of_cell cell in
  let key := key_of cell in
  let module_name := module_name cell in
  lib_dir ← lift (gets (λ s, _lib_dir (self s)));
  ext ← lift (gets (λ s, so_ext (self s)));
  let module_path := module_path lib_dir ext cell in
  let f90_file := f90_file lib_dir cell in
  io_write f90_file code;;
  _run_f2py (fortran_argv lib_dir args cell) false (verbosity args);;
  lift (cache_store key module_name);;
  module ← lift (load_dynamic module_name module_path);
  lift (_import_all module (verbosity args)).

Definition f2py_help (h_fcompiler h_compiler h_resources : bool)
           (h_link : option string) : W unit :=
  if h_fcompiler then _run_f2py ["-c"; "--help-fcompiler"] true 0
  else if h_compiler then _run_f2py ["-c"; "--help-compiler"] true 0
  else if h_resources then _run_f2py ["--help-link"] true 0
  else match h_link with
       | Some l => if decide (l = "") then mret tt
                   else _run_f2py ["--help-link"; l] true 0
       | None => mret tt
       end.

(** The state of the process in which [_run_f2py] would enter the entry
    point, and the one in which [fortran] would. *)
Definition entry_of_run (argv : list string) (verbosity : Z) (w : World) : Proc :=
  f2py_entry argv verbosity (session w).

Definition entry_of_cell (args : Namespace) (cell : string) (w : World) : Proc :=
  driver_entry args cell (session w).

(** What the entry point answers to [fortran] for a cell, and the state in
    which the module is then loaded: the globals are put back and the key
    is stored. *)
Definition answer (args : Namespace) (cell : string) (w : World)
  : result unit * captured * Proc * FileSystem :=
  f2py2e_main_on (fs w) (entry_of_cell args cell w).

Definition loading_proc (args : Namespace) (cell : string) (w : World) : Proc :=
  let '(r, c, p', _) := answer args cell w in
  let b := replays r false (verbosity args) in
  mkProc (sys_argv (proc (session w))) (cwd (proc (session w))) (files p')
         (if b then sys_stdout p' +:+ cap_stdout c else sys_stdout p')
         (if b then sys_stderr p' +:+ cap_stderr c else sys_stderr p').

Definition loaded (args : Namespace) (cell : string) (w : World)
  : result (gmap string pyobj) :=
  let s := session w in
  imp_load_dynamic (module_name cell)
    (module_path (_lib_dir (self s)) (so_ext (self s)) cell)
    (loading_proc args cell w).

End Methods.

(** The file system that allows everything, and the host of a toolchain
    whose entry point leaves the file system alone. *)
Definition permissive : FileSystem := mkFs (λ _, true) (λ _, true).

Definition plain (T : Toolchain) : Host :=
  {| host_toolchain := T;
     f2py2e_main_on := λ fs p, (@f2py2e_main T p, fs) |}.

End Fs.

#[global] Existing Instance Fs.host_toolchain.

(** ** Hosts and file systems to run the methods on *)

Module FsCases.


(** An entry point that builds and, on its way, removes the directory the
    session was started in. *)
Definition removing_main (fs : Fs.FileSystem) (p : Proc)
  : result unit * captured * Proc * Fs.FileSystem :=
  (Sample.building_main p,
   Fs.mkFs (λ d, negb (Py.startswith d "/home/u/work") && Fs.can_enter fs d)
           (Fs.can_write fs)).

Definition removing : Fs.Host :=
  {| Fs.host_toolchain := Sample.building; Fs.f2py2e_main_on := removing_main |}.

(** A session started in [/home/u/work]. *)
Definition w0 : Fs.World :=
  Fs.mkWorld
    {| proc := mkProc ["ipython"] "/home/u/work" ∅ "" "";
       self := __init__ "/home/u/.cache/ipython" ".so" ∅;
       f2py_calls := [] |}
    Fs.permissive [].



End FsCases.

(** ** The digest agrees with the published MD5 test vectors *)

Example md5_empty : Md5.hexdigest "" = "d41d8cd98f00b204e9800998ecf8427e".
Proof. vm_compute. reflexivity. Qed.

Example md5_abc : Md5.hexdigest "abc" = "900150983cd24fb0d6963f7d28e17f72".
Proof. vm_compute. reflexivity. Qed.

Example md5_fox :
  Md5.hexdigest "The quick brown fox jumps over the lazy dog"
  = "9e107d9d372bb6826bd81d3542a419d6".
Proof. vm_compute. reflexivity. Qed.


(** Messages of 55, 56 and 64 bytes, where the padding changes shape. *)
Example md5_padding :
  map (λ n, Md5.hexdigest (string_of_list_ascii (repeat "a"%char n))) [55; 56; 64]%nat
  = ["ef1772b6dff9a122358552954ad0df65"; "3b0c8ac703f828b04c6c197006d17218";
     "014842d480b571495a4a0363793f7367"].
Proof. vm_compute. reflexivity. Qed.

Example sample_module_name :
  @module_name Sample.building Sample.cell
  = "_fortran_magic_f867e8067a2faede35bb2bfcc76acd42".
Proof. vm_compute. reflexivity. Qed.

(** ** Running [_run_f2py] *)

Arguments fingerprint : simpl never.
Arguments Py.os_path_join : simpl never.
Arguments Py.join : simpl never.
Arguments String.append : simpl never.

(** Unfolds the monad and the primitive statements and computes. *)
Ltac run :=
  unfold mbind, M_bind, mret, M_ret, gets, modify, when, raise, try_finally,
    set_sys_argv, os_getcwd, os_chdir, print, write_stdout, write_stderr,
    show, io_write, shell_push, cache_store, load_dynamic, with_proc, with_self;
  cbn.

Section RunF2py.
Context `{Toolchain}.

Lemma f2py_setup_ok argv v s : (f2py_setup argv v s).1 = Ok tt.
Proof. unfold f2py_setup. run. destruct (1 <? v); reflexivity. Qed.

Lemma f2py_entry_argv argv v s : sys_argv (f2py_entry argv v s) = "f2py" :: argv.
Proof. unfold f2py_entry, f2py_setup. run. destruct (1 <? v); reflexivity. Qed.

Lemma f2py_entry_cwd argv v s : cwd (f2py_entry argv v s) = _lib_dir (self s).
Proof. unfold f2py_entry, f2py_setup. run. destruct (1 <? v); reflexivity. Qed.

Lemma f2py_entry_files argv v s : files (f2py_entry argv v s) = files (proc s).
Proof. unfold f2py_entry, f2py_setup. run. destruct (1 <? v); reflexivity. Qed.

Lemma f2py_setup_self argv v s : self (f2py_setup argv v s).2 = self s.
Proof. unfold f2py_setup. run. destruct (1 <? v); reflexivity. Qed.

Lemma f2py_setup_calls argv v s : f2py_calls (f2py_setup argv v s).2 = f2py_calls s.
Proof. unfold f2py_setup. run. destruct (1 <? v); reflexivity. Qed.

(** [_run_f2py] in one equation: the entry point runs once, in the state
    [f2py_entry]; the answer follows its outcome; the two globals are put
    back; the call is recorded. *)
Lemma _run_f2py_eq argv show v s :
  _run_f2py argv show v s =
  let p := f2py_entry argv v s in
  let r := (f2py2e_main p).1.1 in
  let c := (f2py2e_main p).1.2 in
  let p' := (f2py2e_main p).2 in
  let b := replays r show v in
  (outcome_of r,
   {| proc := mkProc (sys_argv (proc s)) (cwd (proc s)) (files p')
                (if b then sys_stdout p' +:+ cap_stdout c else sys_stdout p')
                (if b then sys_stderr p' +:+ cap_stderr c else sys_stderr p');
      self := self s;
      f2py_calls := f2py_calls s ++ [("f2py" :: argv, _lib_dir (self s))] |}).
Proof.
  unfold _run_f2py, f2py_entry, f2py_guarded, f2py_setup, captured_f2py2e_main.
  run. destruct (1 <? v); cbn.
  all: destruct (f2py2e_main _) as [[r c] p'].
  all: destruct r as [[]|[]]; cbn; try reflexivity.
  all: destruct show, (2 <? v); reflexivity.
Qed.


End RunF2py.

(** ** Importing a module *)

Section ImportAll.

(** The loop returns the names it pushed, touches nothing but the user
    namespace, and leaves there the public entries of the items. *)
Lemma import_items_spec items : ∀ imported s,
  NoDup items.*1 →
  let r := import_items items imported s in
  r.1 = Ok (imported ++ filter (λ k, public k) items.*1)
  ∧ proc r.2 = proc s
  ∧ f2py_calls r.2 = f2py_calls s
  ∧ _code_cache (self r.2) = _code_cache (self s)
  ∧ _lib_dir (self r.2) = _lib_dir (self s)
  ∧ so_ext (self r.2) = so_ext (self s)
  ∧ ∀ k, shell_user_ns (self r.2) !! k =
          match (list_to_map items : gmap string pyobj) !! k with
          | Some v => if public k then Some v else shell_user_ns (self s) !! k
          | None => shell_user_ns (self s) !! k
          end.
Proof.
  induction items as [|[k0 v0] items IH]; intros imported s Hnd.
  - cbn. rewrite app_nil_r. repeat split; reflexivity.
  - apply NoDup_cons in Hnd as [Hk0 Hnd].
    assert (Hnone : (list_to_map items : gmap string pyobj) !! k0 = None)
      by (apply not_elem_of_list_to_map_1; exact Hk0).
    cbn [import_items fmap list_fmap fst]. rewrite filter_cons.
    destruct (public k0) eqn:Hpub.
    + run.
      specialize (IH (imported ++ [k0])
                     {| proc := proc s;
                        self := mkMagics (_code_cache (self s)) (_lib_dir (self s))
                                  (so_ext (self s)) (<[k0:=v0]> (shell_user_ns (self s)));
                        f2py_calls := f2py_calls s |} Hnd).
      cbn in IH. destruct IH as (Hr & Hp & Hc & Hcc & Hl & Hs & Hns).
      rewrite decide_True by done.
      rewrite Hr, <- app_assoc. repeat split; try assumption.
      intros k. rewrite Hns. destruct (decide (k = k0)) as [->|Hne].
      * rewrite Hnone, !lookup_insert_eq, Hpub. reflexivity.
      * rewrite !lookup_insert_ne by congruence. reflexivity.
    + specialize (IH imported s Hnd). cbn in IH.
      destruct IH as (Hr & Hp & Hc & Hcc & Hl & Hs & Hns).
      rewrite decide_False by (cbn; tauto).
      repeat split; try assumption.
      intros k. rewrite Hns, list_to_map_cons. cbn [fst snd].
      destruct (decide (k = k0)) as [->|Hne].
      * rewrite Hnone, lookup_insert_eq, Hpub. reflexivity.
      * rewrite lookup_insert_ne by congruence. reflexivity.
Qed.

(** [_import_all] returns; it prints exactly when the verbosity is
    positive and a name was pushed; the rest of the session is kept. *)
Lemma _import_all_spec module v s :
  let r := _import_all module v s in
  r.1 = Ok tt
  ∧ proc r.2 =
      mkProc (sys_argv (proc s)) (cwd (proc s)) (files (proc s))
        (if (0 <? v) && bool_decide (public_names module ≠ [])
         then sys_stdout (proc s)
              +:+ (nl +:+ "Ok. The following fortran objects are ready to use: "
                   +:+ Py.join ", " (public_names module)) +:+ nl
         else sys_stdout (proc s))
        (sys_stderr (proc s))
  ∧ f2py_calls r.2 = f2py_calls s
  ∧ _code_cache (self r.2) = _code_cache (self s)
  ∧ _lib_dir (self r.2) = _lib_dir (self s)
  ∧ ∀ k, shell_user_ns (self r.2) !! k =
          match module !! k with
          | Some o => if public k then Some o else shell_user_ns (self s) !! k
          | None => shell_user_ns (self s) !! k
          end.
Proof.
  pose proof (import_items_spec (map_to_list module) [] s
                (NoDup_fst_map_to_list module)) as Hloop.
  cbn zeta in Hloop. rewrite list_to_map_to_list, app_nil_l in Hloop.
  destruct Hloop as (Hr & Hp & Hc & Hcc & Hl & _ & Hns).
  unfold _import_all. fold (public_names module) in Hr.
  unfold mbind, M_bind.
  destruct (import_items (map_to_list module) [] s) as [r s1].
  cbn [fst snd] in *. subst r.
  destruct ((0 <? v) && bool_decide (public_names module ≠ [])); run;
    rewrite Hp; destruct (proc s); repeat split; assumption || reflexivity.
Qed.

(** C8, as the code has it: every public name of the module is bound in
    the user namespace to the module's object; the summary of the names is
    printed when the verbosity is positive and at least one name was
    bound, and nothing is printed when no name was bound. *)
Theorem _import_all_binds_public module v s :
  let s' := (_import_all module v s).2 in
  (∀ k o, module !! k = Some o → public k = true →
          shell_user_ns (self s') !! k = Some o)
  ∧ (0 < v → public_names module ≠ [] →
     sys_stdout (proc s') =
     sys_stdout (proc s)
     +:+ (nl +:+ "Ok. The following fortran objects are ready to use: "
          +:+ Py.join ", " (public_names module)) +:+ nl)
  ∧ (public_names module = [] → sys_stdout (proc s') = sys_stdout (proc s)).
Proof.
  destruct (_import_all_spec module v s) as (_ & Hp & _ & _ & _ & Hns).
  cbn zeta. rewrite Hp. cbn [sys_stdout]. repeat split.
  - intros k o Hk Hpub. rewrite Hns, Hk, Hpub. reflexivity.
  - intros Hv Hne. apply Z.ltb_lt in Hv. rewrite Hv, bool_decide_true by done.
    reflexivity.
  - intros Hnil. rewrite bool_decide_false, andb_false_r by congruence.
    reflexivity.
Qed.

Lemma _import_all_binds_public_witness :
  let m : gmap string pyobj := <["f" := PyFortran "f"]> {["__doc__" := PyStr "doc"]} in
  let s' := (_import_all m 1 Sample.st0).2 in
  shell_user_ns (self s') !! "f" = Some (PyFortran "f")
  ∧ sys_stdout (proc s') =
    nl +:+ "Ok. The following fortran objects are ready to use: f" +:+ nl.
Proof.
  intros m s'.
  destruct (_import_all_binds_public m 1 Sample.st0) as (Hbind & Hprint & _).
  split.
  - apply Hbind; reflexivity.
  - apply Hprint; [lia | vm_compute; discriminate].
Defined.

(** C8 as stated fails: a module with no public name is imported with
    verbosity 1 and nothing is printed. *)
Lemma _import_all_silent_without_names :
  let m : gmap string pyobj := {["__doc__" := PyStr "doc"]} in
  0 < 1
  ∧ sys_stdout (proc Sample.st0) = ""
  ∧ sys_stdout (proc (_import_all m 1 Sample.st0).2) = "".
Proof. split; [lia | split; vm_compute; reflexivity]. Qed.

End ImportAll.

(** ** Running [fortran] *)

Section Fortran.
Context `{Toolchain}.

Lemma driver_entry_argv args cell s :
  sys_argv (driver_entry args cell s)
  = "f2py" :: fortran_argv (_lib_dir (self s)) args cell.
Proof. unfold driver_entry. apply f2py_entry_argv. Qed.

Lemma driver_entry_cwd args cell s :
  cwd (driver_entry args cell s) = _lib_dir (self s).
Proof. unfold driver_entry. rewrite f2py_entry_cwd. reflexivity. Qed.

Lemma driver_entry_files args cell s :
  files (driver_entry args cell s)
  = <[f90_file (_lib_dir (self s)) cell := code_of_cell cell]> (files (proc s)).
Proof. unfold driver_entry. rewrite f2py_entry_files. reflexivity. Qed.

(** [fortran] by the outcome of the entry point: the call is recorded;
    when the entry point raises, [fortran] ends as [_run_f2py] does and the
    magics object is as before; when it returns, the key is stored in the
    cache before the module is loaded. *)
Lemma fortran_summary args cell s :
  let lib := _lib_dir (self s) in
  let out := f2py2e_main (driver_entry args cell s) in
  let r := out.1.1 in
  let b := replays r false (verbosity args) in
  let s' := (fortran args cell s).2 in
  f2py_calls s' = f2py_calls s ++ [("f2py" :: fortran_argv lib args cell, lib)]
  ∧ _lib_dir (self s') = lib
  ∧ (∀ e, r = Raise e →
       fortran args cell s =
       (outcome_of r,
        {| proc := mkProc (sys_argv (proc s)) (cwd (proc s)) (files out.2)
                     (if b then sys_stdout out.2 +:+ cap_stdout out.1.2
                      else sys_stdout out.2)
                     (if b then sys_stderr out.2 +:+ cap_stderr out.1.2
                      else sys_stderr out.2);
           self := self s;
           f2py_calls := f2py_calls s ++ [("f2py" :: fortran_argv lib args cell, lib)] |}))
  ∧ (r = Ok tt →
     _code_cache (self s') = <[key_of cell := module_name cell]> (_code_cache (self s))).
Proof.
  unfold fortran. run. rewrite _run_f2py_eq. cbn.
  change (f2py_entry _ _ _) with (driver_entry args cell s).
  destruct (f2py2e_main (driver_entry args cell s)) as [[r c] p'].
  cbn [fst snd].
  destruct r as [[]|e]; cbn.
  - destruct (imp_load_dynamic _ _ _) as [m|e]; cbn.
    + match goal with
      | |- context [_import_all m ?v ?st] =>
          destruct (_import_all_spec m v st) as (_ & _ & Hc & Hcc & Hl & _)
      end.
      rewrite Hc, Hcc, Hl. cbn. repeat split; congruence.
    + repeat split; congruence.
  - destruct e; cbn; repeat split; congruence.
Qed.

Lemma startswith_app a b : Py.startswith (a +:+ b) a = true.
Proof.
  induction a as [|c a IH]; [destruct b; reflexivity|].
  change (Py.startswith (String c (a +:+ b)) (String c a) = true).
  cbn [Py.startswith]. rewrite decide_True by reflexivity. exact IH.
Qed.


(** C2: when the f2py entry point raises, [fortran] raises, the cache is
    what it was, and the same request enters the entry point again. *)
Theorem fortran_failure_not_cached args cell s e :
  (f2py2e_main (driver_entry args cell s)).1.1 = Raise e →
  let s' := (fortran args cell s).2 in
  (∃ e', (fortran args cell s).1 = Raise e')
  ∧ _code_cache (self s') = _code_cache (self s)
  ∧ f2py_calls (fortran args cell s').2 =
    f2py_calls s'
    ++ [("f2py" :: fortran_argv (_lib_dir (self s')) args cell, _lib_dir (self s'))].
Proof.
  intros Hr s'.
  destruct (fortran_summary args cell s) as (_ & _ & Hraise & _).
  destruct (fortran_summary args cell s') as (Hcalls' & _).
  specialize (Hraise e Hr). subst s'. rewrite Hraise in *. cbn [fst snd self] in *.
  repeat split; try assumption.
  rewrite Hr. destruct e; cbn; eauto.
Qed.


End Fortran.

(** C1 as stated fails: the sample cell compiles, its key is then in the
    cache, and the same request issued again returns after entering the
    f2py entry point a second time. *)
Lemma second_identical_request_runs_f2py_again :
  let call :=
    (["f2py"; "-m"; "_fortran_magic_f867e8067a2faede35bb2bfcc76acd42"; "-c";
      "/home/u/.cache/ipython/fortran/_fortran_magic_f867e8067a2faede35bb2bfcc76acd42.f90"],
     "/home/u/.cache/ipython/fortran") in
  let r1 := @fortran Sample.building Sample.defaults Sample.cell Sample.st0 in
  let r2 := @fortran Sample.building Sample.defaults Sample.cell r1.2 in
  r1.1 = Ok tt
  ∧ f2py_calls r1.2 = [call]
  ∧ _code_cache (self r1.2) !! @key_of Sample.building Sample.cell
    = Some "_fortran_magic_f867e8067a2faede35bb2bfcc76acd42"
  ∧ r2.1 = Ok tt
  ∧ f2py_calls r2.2 = [call; call].
Proof. repeat split; vm_compute; reflexivity. Qed.

Lemma fortran_failure_not_cached_witness :
  let s' := (@fortran Sample.rejecting Sample.defaults Sample.cell Sample.st0).2 in
  _code_cache (self s') = ∅
  ∧ length (f2py_calls (@fortran Sample.rejecting Sample.defaults Sample.cell s').2)
    = S (length (f2py_calls s')).
Proof.
  intros s'.
  destruct (@fortran_failure_not_cached Sample.rejecting
              Sample.defaults Sample.cell Sample.st0
              (SystemExit (Some (ExitCode 1))))
    as (_ & Hcache & Hcalls).
  - reflexivity.
  - fold s' in Hcache, Hcalls. split; [exact Hcache|].
    rewrite Hcalls, length_app. cbn. lia.
Defined.




(** ** The key and the name of a cell *)

Lemma endswith_nl_app c : Py.endswith_nl (c +:+ nl) = true.
Proof.
  induction c as [|a c IH]; [reflexivity|].
  change (Py.endswith_nl (String a (c +:+ nl)) = true).
  destruct c as [|b c]; [reflexivity|].
  exact IH.
Qed.

Lemma code_of_cell_ends c : Py.endswith_nl (code_of_cell c) = true.
Proof.
  unfold code_of_cell. destruct (Py.endswith_nl c) eqn:E; [exact E|].
  apply endswith_nl_app.
Qed.

(** C9: the line feed is added only to a cell that does not end with one;
    so a cell that does not end with a line feed and the same cell followed
    by a line feed have the same code, the same fingerprint and the same
    module name; and making the code of a code changes nothing. *)
Theorem code_of_cell_normalizes `{Toolchain} (c : string) :
  Py.endswith_nl c = false →
  code_of_cell c = c +:+ nl
  ∧ code_of_cell (c +:+ nl) = c +:+ nl
  ∧ code_of_cell c = code_of_cell (c +:+ nl)
  ∧ fingerprint (key_of c) = fingerprint (key_of (c +:+ nl))
  ∧ module_name c = module_name (c +:+ nl)
  ∧ (∀ x, Py.endswith_nl x = true → code_of_cell x = x)
  ∧ (∀ x, code_of_cell (code_of_cell x) = code_of_cell x).
Proof.
  intros Hc.
  assert (H1 : code_of_cell c = c +:+ nl) by (unfold code_of_cell; rewrite Hc; reflexivity).
  assert (H2 : code_of_cell (c +:+ nl) = c +:+ nl)
    by (unfold code_of_cell; rewrite endswith_nl_app; reflexivity).
  assert (H3 : ∀ x, Py.endswith_nl x = true → code_of_cell x = x)
    by (intros x Hx; unfold code_of_cell; rewrite Hx; reflexivity).
  unfold module_name, key_of. rewrite H1, H2. repeat split; try reflexivity.
  - exact H3.
  - intros x. apply H3, code_of_cell_ends.
Qed.

Lemma code_of_cell_normalizes_witness :
  @module_name Sample.building Sample.cell
  = @module_name Sample.building (Sample.cell +:+ nl).
Proof.
  destruct (@code_of_cell_normalizes Sample.building Sample.cell)
    as (_ & _ & _ & _ & Hname & _).
  - vm_compute. reflexivity.
  - exact Hname.
Defined.

(** C5: two requests with the same code, interpreter version, interpreter
    path and f2py version have the same fingerprint and the same module
    name, whatever the rest of the toolchain; and what [fortran] hands to
    f2py after the translated flags, the module name and the source path,
    is the same whatever the flags. *)
Theorem fingerprint_deterministic (T1 T2 : Toolchain) (c1 c2 : string) :
  code_of_cell c1 = code_of_cell c2 →
  @sys_version_info T1 = @sys_version_info T2 →
  @sys_executable T1 = @sys_executable T2 →
  @f2py_version T1 = @f2py_version T2 →
  fingerprint (@key_of T1 c1) = fingerprint (@key_of T2 c2)
  ∧ @module_name T1 c1 = @module_name T2 c2
  ∧ ∀ a1 a2 lib,
      drop (length (f2py_args a1)) (@fortran_argv T1 lib a1 c1)
      = drop (length (f2py_args a2)) (@fortran_argv T2 lib a2 c2).
Proof.
  intros Hcode Hvi Hexe Hver.
  assert (Hkey : @key_of T1 c1 = @key_of T2 c2)
    by (unfold key_of; rewrite Hcode, Hvi, Hexe, Hver; reflexivity).
  assert (Hname : @module_name T1 c1 = @module_name T2 c2)
    by (unfold module_name; rewrite Hkey; reflexivity).
  repeat split.
  - rewrite Hkey. reflexivity.
  - exact Hname.
  - intros a1 a2 lib. unfold fortran_argv, f90_file.
    rewrite !drop_app_length, Hname. reflexivity.
Qed.

Lemma fingerprint_deterministic_witness :
  @module_name Sample.building Sample.cell
  = @module_name Sample.rejecting (Sample.cell +:+ nl)
  ∧ drop 0 (@fortran_argv Sample.building "/c" Sample.defaults Sample.cell)
    = drop 6 (@fortran_argv Sample.rejecting "/c" Sample.flags (Sample.cell +:+ nl)).
Proof.
  destruct (fingerprint_deterministic Sample.building Sample.rejecting
              Sample.cell (Sample.cell +:+ nl))
    as (_ & Hname & Hargv).
  - vm_compute. reflexivity.
  - reflexivity.
  - reflexivity.
  - reflexivity.
  - split; [exact Hname|].
    exact (Hargv Sample.defaults Sample.flags "/c").
Defined.

(** ** The translation of the options *)

Lemma attributes_NoDup args : NoDup (attributes args).*1.
Proof. cbn. apply NoDup_ListNoDup. repeat constructor; cbn; intuition discriminate. Qed.

Lemma items_Permutation args : map_to_list (vars args) ≡ₚ attributes args.
Proof. apply map_to_list_to_map, attributes_NoDup. Qed.

(** C6: the translator yields the tokens of the flags that are set, then
    the tokens of the options that are given, then one token per linked
    resource in the order of the list; within the first two groups the
    order is that of the dictionary [vars(args)]. It is a function of the
    parsed options alone. *)
Theorem f2py_args_tokens (args : Namespace) :
  ∃ bools strs,
    f2py_args args = bools ++ strs ++ (link_token <$> link args)
    ∧ bools ≡ₚ flag_token "noopt" (noopt args) ++ flag_token "noarch" (noarch args)
               ++ flag_token "debug" (debug args)
    ∧ strs ≡ₚ option_token "fcompiler" (fcompiler args)
              ++ option_token "compiler" (compiler args)
              ++ option_token "f90flags" (f90flags args)
              ++ option_token "f77flags" (f77flags args)
              ++ option_token "opt" (opt args)
              ++ option_token "arch" (arch args).
Proof.
  eexists _, _. split; [|split].
  - unfold f2py_args. destruct (link args); [|rewrite <- app_assoc; reflexivity].
    cbn. rewrite !app_nil_r. reflexivity.
  - rewrite items_Permutation.
    destruct args as [v fc cc f90 f77 o a no na d l].
    destruct fc, cc, f90, f77, o, a, no, na, d; reflexivity.
  - rewrite items_Permutation.
    destruct args as [v fc cc f90 f77 o a no na d l].
    destruct fc, cc, f90, f77, o, a, no, na, d; reflexivity.
Qed.

Example f2py_args_defaults : f2py_args Sample.defaults = [].
Proof. vm_compute. reflexivity. Qed.

(** ** More on [_run_f2py] and on [f2py_help] *)

Section RunF2pyMore.
Context `{Toolchain}.



(** X4: with a verbosity above 1 the command line is printed before the
    entry point is entered, so that it is on the standard output whatever
    the entry point then does to the process; up to 1 nothing is printed. *)
Theorem f2py_entry_announces argv v s :
  (1 < v →
   sys_stdout (f2py_entry argv v s) =
   sys_stdout (proc s)
   +:+ ("Running..." +:+ nl +:+ "   " +:+ Py.join " " ("f2py" :: argv)) +:+ nl)
  ∧ (v ≤ 1 → sys_stdout (f2py_entry argv v s) = sys_stdout (proc s))
  ∧ sys_stderr (f2py_entry argv v s) = sys_stderr (proc s).
Proof.
  unfold f2py_entry, f2py_setup. run. repeat split.
  - intros Hv. apply Z.ltb_lt in Hv. rewrite Hv. reflexivity.
  - intros Hv. replace (1 <? v) with false by (symmetry; apply Z.ltb_ge; lia).
    reflexivity.
  - destruct (1 <? v); reflexivity.
Qed.

(** X5: [f2py_help] obeys the first option that is set, in the order
    fcompiler, compiler, resources, link, and enters the entry point with
    the arguments of that option alone; with no option, or with an empty
    link, it does nothing at all. *)
Theorem f2py_help_first_option_wins fc c r l s :
  let lib := _lib_dir (self s) in
  let calls := f2py_calls (f2py_help fc c r l s).2 in
  (fc = true → calls = f2py_calls s ++ [(["f2py"; "-c"; "--help-fcompiler"], lib)])
  ∧ (fc = false → c = true →
     calls = f2py_calls s ++ [(["f2py"; "-c"; "--help-compiler"], lib)])
  ∧ (fc = false → c = false → r = true →
     calls = f2py_calls s ++ [(["f2py"; "--help-link"], lib)])
  ∧ (fc = false → c = false → r = false → ∀ x, l = Some x → x ≠ "" →
     calls = f2py_calls s ++ [(["f2py"; "--help-link"; x], lib)])
  ∧ (fc = false → c = false → r = false → l = None ∨ l = Some "" →
     f2py_help fc c r l s = (Ok tt, s)).
Proof.
  cbn zeta. unfold f2py_help. repeat split.
  - intros ->. rewrite _run_f2py_eq. reflexivity.
  - intros -> ->. rewrite _run_f2py_eq. reflexivity.
  - intros -> -> ->. rewrite _run_f2py_eq. reflexivity.
  - intros -> -> -> x -> Hx. rewrite decide_False by exact Hx.
    rewrite _run_f2py_eq. reflexivity.
  - intros -> -> -> [->| ->]; reflexivity.
Qed.

End RunF2pyMore.



Lemma f2py_entry_announces_witness :
  sys_stdout (f2py_entry ["-c"; "x.f90"] 2 Sample.st0)
  = "Running..." +:+ nl +:+ "   f2py -c x.f90" +:+ nl
  ∧ sys_stdout (f2py_entry ["-c"; "x.f90"] 1 Sample.st0) = "".
Proof.
  destruct (f2py_entry_announces ["-c"; "x.f90"] 2 Sample.st0) as (Hsay & _).
  destruct (f2py_entry_announces ["-c"; "x.f90"] 1 Sample.st0) as (_ & Hquiet & _).
  split.
  - rewrite Hsay by lia. vm_compute. reflexivity.
  - rewrite Hquiet by lia. reflexivity.
Defined.

Lemma f2py_help_first_option_wins_witness :
  f2py_calls (@f2py_help Cases.idle true true true (Some "lapack") Sample.st0).2
  = [(["f2py"; "-c"; "--help-fcompiler"], "/home/u/.cache/ipython/fortran")]
  ∧ @f2py_help Cases.idle false false false (Some "") Sample.st0 = (Ok tt, Sample.st0).
Proof.
  destruct (@f2py_help_first_option_wins Cases.idle true true true
              (Some "lapack") Sample.st0) as (Hfirst & _).
  destruct (@f2py_help_first_option_wins Cases.idle false false false
              (Some "") Sample.st0) as (_ & _ & _ & _ & Hnone).
  split.
  - rewrite Hfirst by reflexivity. reflexivity.
  - apply Hnone; auto.
Defined.

(** ** More on [_import_all] *)

Lemma _import_all_ns module v s :
  shell_user_ns (self (_import_all module v s).2)
  = filter (λ kv, public kv.1) module ∪ shell_user_ns (self s).
Proof.
  destruct (_import_all_spec module v s) as (_ & _ & _ & _ & _ & Hns).
  apply map_eq. intros k. rewrite Hns.
  destruct (module !! k) as [o|] eqn:Hk.
  - destruct (public k) eqn:Hpub.
    + symmetry. apply lookup_union_Some_l, map_lookup_filter_Some_2; [exact Hk|].
      cbn. rewrite Hpub. exact I.
    + symmetry. apply lookup_union_r, map_lookup_filter_None_2.
      right. intros x _. cbn. rewrite Hpub. auto.
  - symmetry. apply lookup_union_r, map_lookup_filter_None_2. left. exact Hk.
Qed.

(** X7: [_import_all] always returns. The user namespace afterwards is the
    old one overridden by the public entries of the module: a name that the
    module does not hold, or that starts with two underscores, keeps its
    binding. Apart from the user namespace and the standard output, the
    session is as it was. *)
Theorem _import_all_namespace module v s :
  let r := _import_all module v s in
  r.1 = Ok tt
  ∧ shell_user_ns (self r.2)
    = filter (λ kv, public kv.1) module ∪ shell_user_ns (self s)
  ∧ (∀ k, public k = false ∨ module !! k = None →
          shell_user_ns (self r.2) !! k = shell_user_ns (self s) !! k)
  ∧ sys_argv (proc r.2) = sys_argv (proc s)
  ∧ cwd (proc r.2) = cwd (proc s)
  ∧ files (proc r.2) = files (proc s)
  ∧ sys_stderr (proc r.2) = sys_stderr (proc s)
  ∧ _code_cache (self r.2) = _code_cache (self s)
  ∧ f2py_calls r.2 = f2py_calls s.
Proof.
  destruct (_import_all_spec module v s) as (Hr & Hp & Hc & Hcc & _ & Hns).
  cbn zeta. rewrite Hp. cbn. repeat split; try assumption.
  - apply _import_all_ns.
  - intros k Hk. rewrite Hns. destruct Hk as [Hpub|Hk].
    + rewrite Hpub. destruct (module !! k); reflexivity.
    + rewrite Hk. reflexivity.
Qed.

Lemma _import_all_namespace_witness :
  let m : gmap string pyobj := <["f" := PyFortran "f"]> {["__doc__" := PyStr "doc"]} in
  let s := (shell_push "__doc__" (PyStr "mine") Sample.st0).2 in
  let s' := (_import_all m 1 s).2 in
  shell_user_ns (self s') !! "__doc__" = Some (PyStr "mine")
  ∧ shell_user_ns (self s') !! "g" = None.
Proof.
  intros m s s'.
  destruct (_import_all_namespace m 1 s) as (_ & _ & Hkeep & _).
  split.
  - etransitivity; [apply Hkeep; left; reflexivity|]. reflexivity.
  - etransitivity; [apply Hkeep; right; reflexivity|]. reflexivity.
Defined.

(** X8: importing the same module a second time, at any verbosity, changes
    nothing in the user namespace. *)
Theorem _import_all_twice module v v' s :
  let s1 := (_import_all module v s).2 in
  shell_user_ns (self (_import_all module v' s1).2) = shell_user_ns (self s1).
Proof.
  cbn zeta. rewrite !_import_all_ns. apply map_eq. intros k.
  rewrite !lookup_union.
  destruct (filter (λ kv : string * pyobj, public kv.1) module !! k);
    destruct (shell_user_ns (self s) !! k); reflexivity.
Qed.

(** ** More on [fortran] *)

Section FortranMore.
Context `{Toolchain}.

(** The state in which the module is loaded, spelled out. *)
Lemma load_entry_eq args cell s :
  load_entry args cell s =
  let lib := _lib_dir (self s) in
  let out := f2py2e_main (driver_entry args cell s) in
  let b := replays out.1.1 false (verbosity args) in
  {| proc := mkProc (sys_argv (proc s)) (cwd (proc s)) (files out.2)
               (if b then sys_stdout out.2 +:+ cap_stdout out.1.2
                else sys_stdout out.2)
               (if b then sys_stderr out.2 +:+ cap_stderr out.1.2
                else sys_stderr out.2);
     self := mkMagics (<[key_of cell := module_name cell]> (_code_cache (self s)))
               (_lib_dir (self s)) (so_ext (self s)) (shell_user_ns (self s));
     f2py_calls := f2py_calls s ++ [("f2py" :: fortran_argv lib args cell, lib)] |}.
Proof.
  unfold load_entry. rewrite _run_f2py_eq. run.
  change (f2py_entry _ _ _) with (driver_entry args cell s). reflexivity.
Qed.

(** [fortran] when the entry point has returned: the rest is the loading
    and the import. *)
Lemma fortran_after_build args cell s :
  (f2py2e_main (driver_entry args cell s)).1.1 = Ok tt →
  fortran args cell s =
  match load_result args cell s with
  | Ok module => _import_all module (verbosity args) (load_entry args cell s)
  | Raise e => (Raise e, load_entry args cell s)
  end.
Proof.
  intros Hr. unfold load_result. rewrite load_entry_eq.
  unfold fortran. run. rewrite _run_f2py_eq. cbn.
  change (f2py_entry _ _ _) with (driver_entry args cell s).
  rewrite Hr. cbn.
  destruct (imp_load_dynamic _ _ _); reflexivity.
Qed.

(** X10: when the entry point returns and the module cannot be loaded,
    [fortran] raises the loader's exception; the key is in the cache all
    the same, since it is stored before the loading, and the user namespace
    is not touched. *)
Theorem fortran_load_failure_is_cached args cell s e :
  (f2py2e_main (driver_entry args cell s)).1.1 = Ok tt →
  load_result args cell s = Raise e →
  let r := fortran args cell s in
  r.1 = Raise e
  ∧ _code_cache (self r.2) !! key_of cell = Some (module_name cell)
  ∧ shell_user_ns (self r.2) = shell_user_ns (self s).
Proof.
  intros Hr Hload r. subst r. rewrite fortran_after_build by exact Hr.
  rewrite Hload, load_entry_eq. cbn. repeat split. apply lookup_insert_eq.
Qed.

(** The cache after [fortran] is the cache before, with the key of the
    cell when the entry point returned. *)
Lemma fortran_cache_cases args cell s :
  let s' := (fortran args cell s).2 in
  _code_cache (self s') = _code_cache (self s)
  ∨ _code_cache (self s') = <[key_of cell := module_name cell]> (_code_cache (self s)).
Proof.
  cbn zeta. destruct (fortran_summary args cell s) as (_ & _ & Hraise & Hstore).
  destruct (f2py2e_main (driver_entry args cell s)).1.1 as [[]|e] eqn:Hr.
  - right. apply Hstore. reflexivity.
  - left. rewrite (Hraise e eq_refl). reflexivity.
Qed.

(** X13: [fortran] keeps the cache consistent and never loses an entry:
    when every entry maps a key to the module name made from it, this is
    still so afterwards, and every entry there was is still there. *)
Theorem fortran_keeps_cache args cell s :
  cache_consistent (self s) →
  let s' := (fortran args cell s).2 in
  cache_consistent (self s')
  ∧ ∀ key name, _code_cache (self s) !! key = Some name →
                _code_cache (self s') !! key = Some name.
Proof.
  intros Hcons s'.
  pose proof (fortran_cache_cases args cell s) as Hcache. fold s' in Hcache.
  unfold cache_consistent. destruct Hcache as [-> | ->]; split; auto.
  - intros key name. destruct (decide (key = key_of cell)) as [->|Hne].
    + rewrite lookup_insert_eq. intros [= <-]. reflexivity.
    + rewrite lookup_insert_ne by congruence. apply Hcons.
  - intros key name Hk. destruct (decide (key = key_of cell)) as [->|Hne].
    + rewrite lookup_insert_eq. f_equal. symmetry. apply (Hcons _ _ Hk).
    + rewrite lookup_insert_ne by congruence. exact Hk.
Qed.

(** X14: with a verbosity of zero a build that succeeds is silent: what the
    entry point printed while captured is dropped and [fortran] prints
    nothing, whether the module then loads or not. *)
Theorem fortran_quiet_build args cell s :
  (f2py2e_main (driver_entry args cell s)).1.1 = Ok tt →
  verbosity args ≤ 0 →
  let out := f2py2e_main (driver_entry args cell s) in
  let s' := (fortran args cell s).2 in
  sys_stdout (proc s') = sys_stdout out.2
  ∧ sys_stderr (proc s') = sys_stderr out.2.
Proof.
  intros Hr Hv out s'. subst s'. rewrite fortran_after_build by exact Hr.
  assert (H2 : (2 <? verbosity args) = false) by (apply Z.ltb_ge; lia).
  assert (H0 : (0 <? verbosity args) = false) by (apply Z.ltb_ge; lia).
  destruct (load_result args cell s) as [m|e].
  - destruct (_import_all_spec m (verbosity args) (load_entry args cell s))
      as (_ & Hp & _).
    rewrite Hp, load_entry_eq, H0. fold out. cbn. subst out.
    rewrite Hr. cbn. rewrite H2. split; reflexivity.
  - rewrite load_entry_eq. fold out. cbn. subst out.
    rewrite Hr. cbn. rewrite H2. split; reflexivity.
Qed.

End FortranMore.

Lemma fortran_load_failure_is_cached_witness :
  let r := @fortran Cases.idle Sample.defaults Sample.cell Sample.st0 in
  (∃ path, r.1 = Raise (OtherError "ImportError" path))
  ∧ is_Some (_code_cache (self r.2) !! @key_of Cases.idle Sample.cell)
  ∧ shell_user_ns (self r.2) = ∅.
Proof.
  intros r.
  destruct (@fortran_load_failure_is_cached Cases.idle Sample.defaults
              Sample.cell Sample.st0
              (OtherError "ImportError"
                 "/home/u/.cache/ipython/fortran/_fortran_magic_f867e8067a2faede35bb2bfcc76acd42.so"))
    as (Hr & Hcache & Hns).
  - reflexivity.
  - vm_compute. reflexivity.
  - fold r in Hr, Hcache, Hns. repeat split; eauto.
Defined.

Lemma fortran_keeps_cache_witness :
  let s1 := (@fortran Sample.building Sample.defaults Sample.cell Sample.st0).2 in
  let s2 := (@fortran Sample.building Sample.flags "end" s1).2 in
  _code_cache (self s2) !! @key_of Sample.building Sample.cell
  = Some "_fortran_magic_f867e8067a2faede35bb2bfcc76acd42".
Proof.
  intros s1 s2.
  assert (H0 : cache_consistent (self Sample.st0))
    by (intros key name Hk; discriminate Hk).
  destruct (@fortran_keeps_cache Sample.building Sample.defaults Sample.cell
              Sample.st0 H0) as (H1 & _).
  destruct (@fortran_keeps_cache Sample.building Sample.flags "end" s1 H1)
    as (_ & Hkept).
  apply Hkept. vm_compute. reflexivity.
Defined.

Lemma fortran_quiet_build_witness :
  let s' := (@fortran Cases.idle Sample.defaults Sample.cell Sample.st0).2 in
  sys_stdout (proc s') = "" ∧ sys_stderr (proc s') = "".
Proof.
  intros s'.
  destruct (@fortran_quiet_build Cases.idle Sample.defaults Sample.cell Sample.st0)
    as (Hout & Herr).
  - reflexivity.
  - cbn. lia.
  - fold s' in Hout, Herr. rewrite Hout, Herr. split; reflexivity.
Defined.

(** ** The helper [compose] and the property [so_ext] *)

(** X15: [compose] builds the stack of decorators its documentation
    describes, the first decorator outermost; composing a longer list is
    composing its two parts. *)
Theorem compose_stacks {A : Type} (decors : list (A → A)) (f : A) :
  compose decors f = foldr (λ decor g, decor g) f decors
  ∧ ∀ more, compose (decors ++ more) f = compose decors (compose more f).
Proof.
  unfold compose. split.
  - induction decors as [|d decors IH]; [reflexivity|].
    cbn [rev foldr]. rewrite fold_left_app, IH. reflexivity.
  - intros more. rewrite rev_app_distr, fold_left_app. reflexivity.
Qed.

Example compose_order :
  compose [Cases.double; Cases.succ] 3 = Cases.double (Cases.succ 3)
  ∧ compose [Cases.succ; Cases.double] 3 = Cases.succ (Cases.double 3).
Proof. split; reflexivity. Qed.

Lemma list_remove_absent x l : x ∉ l → list_remove x l = None.
Proof.
  induction l as [|y l IH]; [reflexivity|].
  intros Hx. apply not_elem_of_cons in Hx as [Hne Hx]. cbn.
  rewrite decide_False by congruence. rewrite IH by exact Hx. reflexivity.
Qed.

Lemma list_remove_first x l1 l2 :
  x ∉ l1 → list_remove x (l1 ++ x :: l2) = Some (l1 ++ l2).
Proof.
  induction l1 as [|y l1 IH]; intros Hx; cbn.
  - rewrite decide_True by reflexivity. reflexivity.
  - apply not_elem_of_cons in Hx as [Hne Hx].
    rewrite decide_False by congruence. rewrite IH by exact Hx. reflexivity.
Qed.

(** X16: the files [so_ext] lets distutils parse are the files found
    without the first ['setup.cfg']: all of them when there is none, none
    of them ['setup.cfg'] when it was found once; the other files stay, in
    their order. *)
Theorem parsed_config_files_drop_setup_cfg (found : list string) :
  ("setup.cfg" ∉ found → parsed_config_files found = found)
  ∧ (∀ l1 l2, found = l1 ++ "setup.cfg" :: l2 → "setup.cfg" ∉ l1 →
              parsed_config_files found = l1 ++ l2)
  ∧ (NoDup found → "setup.cfg" ∉ parsed_config_files found)
  ∧ (∀ x, x ≠ "setup.cfg" → x ∈ parsed_config_files found ↔ x ∈ found).
Proof.
  unfold parsed_config_files.
  assert (Hfirst : ∀ l1 l2, found = l1 ++ "setup.cfg" :: l2 → "setup.cfg" ∉ l1 →
            match list_remove "setup.cfg" found with
            | Some l => l
            | None => found
            end = l1 ++ l2)
    by (intros l1 l2 -> Hl1; rewrite list_remove_first by exact Hl1; reflexivity).
  assert (Habsent : "setup.cfg" ∉ found →
            match list_remove "setup.cfg" found with
            | Some l => l
            | None => found
            end = found)
    by (intros Hno; rewrite list_remove_absent by exact Hno; reflexivity).
  repeat split; try assumption.
  - intros Hnd. destruct (decide ("setup.cfg" ∈ found)) as [Hin|Hno].
    + apply list_elem_of_split_l in Hin as (l1 & l2 & -> & Hl1).
      rewrite (Hfirst l1 l2 eq_refl Hl1).
      apply NoDup_app in Hnd as (_ & Hdis & Hnd2).
      apply NoDup_cons in Hnd2 as [Hl2 _].
      intros Hin. apply elem_of_app in Hin as [Hin|Hin]; contradiction.
    + rewrite Habsent by exact Hno. exact Hno.
  - destruct (decide ("setup.cfg" ∈ found)) as [Hin|Hno].
    + apply list_elem_of_split_l in Hin as (l1 & l2 & -> & Hl1).
      rewrite (Hfirst l1 l2 eq_refl Hl1). rewrite !elem_of_app, elem_of_cons.
      intros [?|?]; auto.
    + rewrite Habsent by exact Hno. auto.
  - destruct (decide ("setup.cfg" ∈ found)) as [Hin|Hno].
    + apply list_elem_of_split_l in Hin as (l1 & l2 & -> & Hl1).
      rewrite (Hfirst l1 l2 eq_refl Hl1). rewrite !elem_of_app, elem_of_cons.
      intros [?|[?|?]]; auto. congruence.
    + rewrite Habsent by exact Hno. auto.
Qed.

Lemma parsed_config_files_drop_setup_cfg_witness :
  parsed_config_files ["/usr/lib/distutils.cfg"; "setup.cfg"; "/home/u/.pydistutils.cfg"]
  = ["/usr/lib/distutils.cfg"; "/home/u/.pydistutils.cfg"]
  ∧ parsed_config_files ["/usr/lib/distutils.cfg"] = ["/usr/lib/distutils.cfg"].
Proof.
  split.
  - destruct (parsed_config_files_drop_setup_cfg
                ["/usr/lib/distutils.cfg"; "setup.cfg"; "/home/u/.pydistutils.cfg"])
      as (_ & Hfirst & _).
    apply (Hfirst ["/usr/lib/distutils.cfg"] ["/home/u/.pydistutils.cfg"]);
      [reflexivity|].
    intros Hin. apply list_elem_of_singleton in Hin. discriminate Hin.
  - destruct (parsed_config_files_drop_setup_cfg ["/usr/lib/distutils.cfg"])
      as (Hnone & _).
    apply Hnone. intros Hin. apply list_elem_of_singleton in Hin. discriminate Hin.
Defined.

(** X17: [so_ext] computes the suffix once. The first reading stores what
    distutils answers for the parsed files; every later reading returns the
    stored suffix, whatever distutils would answer by then. *)
Theorem so_ext_property_memoizes found ext_filename attr found' ext_filename' :
  let r := so_ext_property found ext_filename attr in
  r.2 = Some r.1
  ∧ (attr = None → r.1 = ext_filename (parsed_config_files found))
  ∧ so_ext_property found' ext_filename' r.2 = r.
Proof. destruct attr; cbn; repeat split; intros; congruence. Qed.

Lemma so_ext_property_memoizes_witness :
  let r := so_ext_property ["setup.cfg"] (λ l, if l is [] then ".so" else ".pyd") None in
  r = (".so", Some ".so")
  ∧ so_ext_property [] (λ _, ".dll") r.2 = r.
Proof.
  intros r.
  destruct (so_ext_property_memoizes ["setup.cfg"]
              (λ l, if l is [] then ".so" else ".pyd") None [] (λ _, ".dll"))
    as (Hattr & Hfirst & Hagain).
  fold r in Hattr, Hfirst, Hagain. split; [|exact Hagain].
  destruct r as [e a]. cbn in *. rewrite Hattr, Hfirst by reflexivity. reflexivity.
Defined.

(** ** The shape of the module name and of the paths *)

Lemma length_append (a b : string) :
  String.length (a +:+ b) = (String.length a + String.length b)%nat.
Proof.
  induction a as [|c a IH]; [reflexivity|].
  change (S (String.length (a +:+ b)) = S (String.length a + String.length b)).
  rewrite IH. reflexivity.
Qed.

Lemma all_chars_append P (a b : string) :
  all_chars P (a +:+ b) = all_chars P a && all_chars P b.
Proof.
  induction a as [|c a IH]; [reflexivity|].
  change (P c && all_chars P (a +:+ b) = P c && all_chars P a && all_chars P b).
  rewrite IH, andb_assoc. reflexivity.
Qed.

Lemma all_chars_weaken (P Q : ascii → bool) s :
  (∀ c, P c = true → Q c = true) → all_chars P s = true → all_chars Q s = true.
Proof.
  intros HPQ. induction s as [|c s IH]; [reflexivity|]. cbn.
  intros Hs. apply andb_true_iff in Hs as [Hc Hs].
  rewrite (HPQ c Hc), (IH Hs). reflexivity.
Qed.

Lemma hex_digit_is_hex n : 0 ≤ n < 16 → is_hex_digit (Py.hex_digit n) = true.
Proof.
  intros Hn.
  assert (n = 0 ∨ n = 1 ∨ n = 2 ∨ n = 3 ∨ n = 4 ∨ n = 5 ∨ n = 6 ∨ n = 7 ∨ n = 8
          ∨ n = 9 ∨ n = 10 ∨ n = 11 ∨ n = 12 ∨ n = 13 ∨ n = 14 ∨ n = 15)
    as Hcases by lia.
  repeat (destruct Hcases as [->|Hcases]; [reflexivity|]). subst n. reflexivity.
Qed.

Lemma le_bytes_length n x : length (Md5.le_bytes n x) = n.
Proof. revert x. induction n as [|n IH]; intros x; cbn; [|rewrite IH]; reflexivity. Qed.

Lemma le_bytes_range n x : Forall (λ b, 0 ≤ b < 256) (Md5.le_bytes n x).
Proof.
  revert x. induction n as [|n IH]; intros x; cbn; constructor; [|apply IH].
  change 255 with (Z.ones 8). rewrite Z.land_ones by lia.
  apply Z.mod_pos_bound. lia.
Qed.

Lemma digest_bytes msg :
  length (Md5.digest msg) = 16%nat ∧ Forall (λ b, 0 ≤ b < 256) (Md5.digest msg).
Proof.
  unfold Md5.digest. destruct (Md5.blocks _ _ _) as [[[a b] c] d]. split.
  - rewrite !length_app, !le_bytes_length. reflexivity.
  - repeat (apply Forall_app; split); apply le_bytes_range.
Qed.

Lemma hex_shape bs :
  Forall (λ b, 0 ≤ b < 256) bs →
  String.length (Md5.hex bs) = (2 * length bs)%nat
  ∧ all_chars is_hex_digit (Md5.hex bs) = true.
Proof.
  induction 1 as [|b bs Hb _ [IHl IHc]]; [split; reflexivity|].
  cbn [Md5.hex String.length all_chars length]. split; [rewrite IHl; lia|].
  rewrite !hex_digit_is_hex, IHc; [reflexivity| |].
  - apply Z.mod_pos_bound. lia.
  - split; [apply Z.div_pos; lia | apply Z.div_lt_upper_bound; lia].
Qed.

(** X18: the digest of a key is 32 lower-case hexadecimal digits, whatever
    the cell; so the module name is [_fortran_magic_] followed by them, 47
    characters that are lower-case letters, digits or underscores: a
    Python identifier, and a file name without a separator. *)
Theorem module_name_shape `{Toolchain} (cell : string) :
  String.length (fingerprint (key_of cell)) = 32%nat
  ∧ all_chars is_hex_digit (fingerprint (key_of cell)) = true
  ∧ module_name cell = "_fortran_magic_" +:+ fingerprint (key_of cell)
  ∧ String.length (module_name cell) = 47%nat
  ∧ all_chars is_ident_char (module_name cell) = true.
Proof.
  unfold module_name, module_name_of, fingerprint, Md5.hexdigest.
  destruct (digest_bytes (map Py.code (list_ascii_of_string (str_key (key_of cell)))))
    as [Hlen Hrange].
  destruct (hex_shape _ Hrange) as [Hl Hc]. rewrite Hlen in Hl.
  repeat split; try assumption.
  - rewrite length_append, Hl. reflexivity.
  - rewrite all_chars_append. apply andb_true_iff. split; [reflexivity|].
    apply (all_chars_weaken is_hex_digit); [|exact Hc].
    intros c Hhex. unfold is_hex_digit, is_ident_char in *.
    apply orb_true_iff in Hhex. apply orb_true_iff. left. apply orb_true_iff.
    destruct Hhex as [Hdigit|Hletter]; [left; exact Hdigit|right].
    apply andb_true_iff in Hletter as [Hlow Hhigh].
    apply andb_true_iff. split; [exact Hlow|].
    apply Z.leb_le in Hhigh. apply Z.leb_le. lia.
Qed.

Lemma list_ascii_of_string_append (a b : string) :
  list_ascii_of_string (a +:+ b) = list_ascii_of_string a ++ list_ascii_of_string b.
Proof.
  induction a as [|c a IH]; [reflexivity|].
  change (c :: list_ascii_of_string (a +:+ b)
          = c :: (list_ascii_of_string a ++ list_ascii_of_string b)).
  rewrite IH. reflexivity.
Qed.

Lemma endswith_slash_fortran x : Py.endswith_slash (x +:+ "fortran") = false.
Proof.
  unfold Py.endswith_slash.
  rewrite list_ascii_of_string_append, rev_app_distr. reflexivity.
Qed.

Lemma append_fortran_nonempty x : x +:+ "fortran" ≠ "".
Proof. destruct x; discriminate. Qed.

(** X19: for a magics object made by [__init__] the cache directory is
    not empty and does not end with a slash, so the source file and the
    module to load are [<cache directory>/<module name>] with the suffixes
    [.f90] and [so_ext]: the two lie side by side and differ by the suffix
    alone. *)
Theorem paths_of_a_cell `{Toolchain} (ipython_cache_dir ext : string)
        (ns : gmap string pyobj) (cell : string) :
  let m := __init__ ipython_cache_dir ext ns in
  let lib := _lib_dir m in
  Py.startswith lib ipython_cache_dir = true
  ∧ f90_file lib cell = lib +:+ "/" +:+ module_name cell +:+ ".f90"
  ∧ module_path lib (so_ext m) cell = lib +:+ "/" +:+ module_name cell +:+ ext.
Proof.
  cbn zeta. cbn [__init__ _lib_dir so_ext].
  assert (Hlib : ∃ x, Py.os_path_join ipython_cache_dir "fortran" = x +:+ "fortran"
                      ∧ Py.startswith (x +:+ "fortran") ipython_cache_dir = true).
  { unfold Py.os_path_join.
    replace (Py.startswith "fortran" "/") with false by reflexivity.
    destruct (decide (ipython_cache_dir = "")) as [->|_]; [exists ""; split; reflexivity|].
    destruct (Py.endswith_slash ipython_cache_dir).
    - exists ipython_cache_dir. split; [reflexivity|apply startswith_app].
    - exists (ipython_cache_dir +:+ "/"). split.
      + clear. induction ipython_cache_dir as [|c a IH]; [reflexivity|].
        change (String c (a +:+ "/" +:+ "fortran") = String c ((a +:+ "/") +:+ "fortran")).
        rewrite IH. reflexivity.
      + clear. induction ipython_cache_dir as [|c a IH]; [reflexivity|].
        change (Py.startswith (String c ((a +:+ "/") +:+ "fortran")) (String c a) = true).
        cbn [Py.startswith]. rewrite decide_True by reflexivity. exact IH. }
  destruct Hlib as (x & -> & Hpre). split; [exact Hpre|].
  unfold f90_file, module_path, Py.os_path_join.
  assert (Hrel : ∀ suffix, Py.startswith (module_name cell +:+ suffix) "/" = false)
    by reflexivity.
  rewrite !Hrel, !decide_False by apply append_fortran_nonempty.
  rewrite endswith_slash_fortran. split; reflexivity.
Qed.

(** ** More on the translation of the options *)

(** The tokens of the translator, up to the order inside the dictionary. *)
Lemma f2py_args_Permutation args :
  f2py_args args ≡ₚ
  (flag_token "noopt" (noopt args) ++ flag_token "noarch" (noarch args)
   ++ flag_token "debug" (debug args))
  ++ (option_token "fcompiler" (fcompiler args)
      ++ option_token "compiler" (compiler args)
      ++ option_token "f90flags" (f90flags args)
      ++ option_token "f77flags" (f77flags args)
      ++ option_token "opt" (opt args)
      ++ option_token "arch" (arch args))
  ++ (link_token <$> link args).
Proof.
  assert (Hargs : f2py_args args =
            ((λ kv, "--" +:+ kv.1) <$> filter (λ kv, is_True kv.2) (map_to_list (vars args)))
            ++ ((λ kv, "--" +:+ kv.1 +:+ "=" +:+ str_value kv.2)
                  <$> filter (λ kv, is_basestring kv.2) (map_to_list (vars args)))
            ++ (link_token <$> link args)).
  { unfold f2py_args. destruct (link args); [|rewrite <- app_assoc; reflexivity].
    cbn. rewrite !app_nil_r. reflexivity. }
  rewrite Hargs, items_Permutation.
  destruct args as [v fc cc f90 f77 o a no na d l].
  destruct fc, cc, f90, f77, o, a, no, na, d; reflexivity.
Qed.

(** X20: every token of the translator starts with two dashes; none is
    [-m] or [-c], so the module name and the source that [fortran] appends
    cannot be taken for an option of the user, nor an option for them. *)
Theorem f2py_args_start_with_dashes (args : Namespace) (t : string) :
  t ∈ f2py_args args →
  Py.startswith t "--" = true ∧ t ≠ "-m" ∧ t ≠ "-c".
Proof.
  intros Ht.
  assert (Hdash : Py.startswith t "--" = true).
  { rewrite f2py_args_Permutation in Ht.
    repeat (apply elem_of_app in Ht as [Ht|Ht]).
    1-3: match type of Ht with
         | _ ∈ flag_token _ ?b =>
             destruct b; cbn in Ht;
             [apply list_elem_of_singleton in Ht as ->; reflexivity
             |apply elem_of_nil in Ht; contradiction]
         end.
    1-6: match type of Ht with
         | _ ∈ option_token _ ?o =>
             destruct o; cbn in Ht;
             [apply list_elem_of_singleton in Ht as ->; reflexivity
             |apply elem_of_nil in Ht; contradiction]
         end.
    apply list_elem_of_fmap in Ht as (r & -> & _). reflexivity. }
  repeat split; [exact Hdash| |]; intros ->; discriminate Hdash.
Qed.

Lemma f2py_args_start_with_dashes_witness :
  Py.startswith "--link-blas" "--" = true
  ∧ "--link-blas" ≠ "-m" ∧ "--link-blas" ≠ "-c".
Proof.
  apply (f2py_args_start_with_dashes Sample.flags).
  vm_compute. repeat constructor.
Defined.

(** X21: the translator yields one token for each flag that is set, each
    option that is given and each linked resource, and nothing else: the
    verbosity never reaches f2py, and with nothing set the list is empty. *)
Theorem f2py_args_length (args : Namespace) :
  length (f2py_args args) = set_count args
  ∧ (set_count args = 0%nat → f2py_args args = []).
Proof.
  assert (Hlen : length (f2py_args args) = set_count args).
  { rewrite f2py_args_Permutation, !length_app, length_fmap. unfold set_count.
    destruct args as [v fc cc f90 f77 o a no na d l]. cbn [noopt noarch debug
      fcompiler compiler f90flags f77flags opt arch link].
    destruct fc, cc, f90, f77, o, a, no, na, d; reflexivity. }
  split; [exact Hlen|].
  intros Hzero. apply length_zero_iff_nil. rewrite Hlen. exact Hzero.
Qed.

Lemma f2py_args_length_witness :
  f2py_args (with_verbosity 3 Sample.defaults) = [].
Proof.
  destruct (f2py_args_length (with_verbosity 3 Sample.defaults)) as (_ & Hempty).
  apply Hempty. reflexivity.
Defined.

(** The items of [vars(args)] in the order of the embedding's dictionary.
    The order of a Python dictionary is another one; the statements of
    this development do not rely on either. *)
Lemma items_in_model_order args :
  map_to_list (vars args) =
  [("opt", opt_value (opt args)); ("compiler", opt_value (compiler args));
   ("arch", opt_value (arch args)); ("noopt", VBool (noopt args));
   ("noarch", VBool (noarch args)); ("verbosity", VInt (verbosity args));
   ("f77flags", opt_value (f77flags args)); ("fcompiler", opt_value (fcompiler args));
   ("f90flags", opt_value (f90flags args)); ("link", VList (link args));
   ("debug", VBool (debug args))].
Proof. destruct args. vm_compute. reflexivity. Qed.

(** X22: the tokens do not depend on the verbosity: [-v] changes what the
    magic prints, never what f2py is asked to do. *)
Theorem f2py_args_ignore_verbosity (v : Z) (args : Namespace) :
  f2py_args (with_verbosity v args) = f2py_args args.
Proof.
  unfold f2py_args. rewrite !items_in_model_order.
  destruct args as [v0 fc cc f90 f77 o a no na d l]. reflexivity.
Qed.

(** ** The text that is hashed, and the cells that share a key *)

Lemma str_int_ascii n : all_chars is_ascii (Py.str_int n) = true.
Proof.
  unfold Py.str_int.
  assert (Huint : ∀ d, all_chars is_ascii (NilEmpty.string_of_uint d) = true)
    by (induction d; cbn; try rewrite IHd; reflexivity).
  assert (Hzero : ∀ d, all_chars is_ascii (NilZero.string_of_uint d) = true)
    by (intros d; destruct d; try reflexivity; apply (Huint (_ _))).
  destruct (Z.to_int n) as [d|d]; cbn; [apply Hzero|].
  change (all_chars is_ascii (NilZero.string_of_uint d) = true). apply Hzero.
Qed.

Lemma code_bounds c : 0 ≤ Py.code c < 256.
Proof.
  unfold Py.code. pose proof (N_ascii_bounded c) as Hc. lia.
Qed.

Lemma hex_digit_ascii n : 0 ≤ n < 16 → is_ascii (Py.hex_digit n) = true.
Proof.
  intros Hn. pose proof (hex_digit_is_hex n Hn) as Hhex.
  unfold is_hex_digit, is_ascii in *. apply Z.ltb_lt.
  apply orb_true_iff in Hhex as [Hd|Hl];
    apply andb_true_iff in Hd || apply andb_true_iff in Hl.
  - destruct Hd as [_ Hd]. apply Z.leb_le in Hd. lia.
  - destruct Hl as [_ Hl]. apply Z.leb_le in Hl. lia.
Qed.

Lemma repr_char_ascii q c :
  is_ascii q = true → all_chars is_ascii (Py.repr_char q c) = true.
Proof.
  intros Hq. unfold Py.repr_char.
  destruct (decide (c = q)) as [->|_]; [cbn; rewrite Hq; reflexivity|].
  destruct (decide (c = "\"%char)); [reflexivity|].
  destruct (Py.code c =? 9); [reflexivity|].
  destruct (Py.code c =? 10); [reflexivity|].
  destruct (Py.code c =? 13); [reflexivity|].
  pose proof (code_bounds c) as Hc.
  destruct ((Py.code c <? 32) || (127 <=? Py.code c)) eqn:Hout.
  - cbn [all_chars]. rewrite !hex_digit_ascii; [reflexivity| |].
    + apply Z.mod_pos_bound. lia.
    + split; [apply Z.div_pos; lia | apply Z.div_lt_upper_bound; lia].
  - apply orb_false_iff in Hout as [_ Hhigh]. apply Z.leb_gt in Hhigh.
    cbn. unfold is_ascii. replace (Py.code c <? 128) with true; [reflexivity|].
    symmetry. apply Z.ltb_lt. lia.
Qed.

Lemma repr_str_ascii s : all_chars is_ascii (Py.repr_str s) = true.
Proof.
  unfold Py.repr_str.
  assert (Hq : is_ascii (Py.repr_quote s) = true)
    by (unfold Py.repr_quote; destruct (_ && _); reflexivity).
  assert (Hbody : ∀ t, all_chars is_ascii (Py.repr_body (Py.repr_quote s) t) = true).
  { induction t as [|c t IH]; [reflexivity|].
    cbn [Py.repr_body]. rewrite all_chars_append, repr_char_ascii, IH by exact Hq.
    reflexivity. }
  cbn [all_chars]. rewrite Hq, all_chars_append, Hbody. cbn. rewrite Hq. reflexivity.
Qed.

(** X23: the text that is hashed, [str(key)], holds ASCII characters only,
    whatever the cell and the interpreter path hold: [repr] escapes the
    rest. Encoding it, which for a Python 2 [str] decodes it as ASCII
    first, cannot fail and gives the text itself. *)
Theorem str_key_is_ascii (key : cache_key) :
  all_chars is_ascii (str_key key) = true.
Proof.
  destruct key as [[[code vi] exe] ver].
  unfold str_key, repr_version_info, Py.repr_unicode.
  rewrite !all_chars_append, !repr_str_ascii, !str_int_ascii. reflexivity.
Qed.

Lemma append_nl_nonempty a : a +:+ nl ≠ "".
Proof. destruct a; discriminate. Qed.

Lemma append_nl_inj a : ∀ b, a +:+ nl = b +:+ nl → a = b.
Proof.
  induction a as [|c a IH]; intros [|d b] Heq.
  - reflexivity.
  - change (String "010" "" = String d (b +:+ nl)) in Heq.
    injection Heq as _ Hb. symmetry in Hb. destruct (append_nl_nonempty b Hb).
  - change (String c (a +:+ nl) = String "010" "") in Heq.
    injection Heq as _ Ha. destruct (append_nl_nonempty a Ha).
  - change (String c (a +:+ nl) = String d (b +:+ nl)) in Heq.
    injection Heq as -> Hab. rewrite (IH b Hab). reflexivity.
Qed.

(** X24: two cells have the same key, hence the same module name and the
    same files, exactly when they are equal or one is the other followed
    by one line feed that the other does not end with. *)
Theorem key_of_collisions `{Toolchain} (c d : string) :
  key_of c = key_of d ↔
  c = d
  ∨ (Py.endswith_nl d = false ∧ c = d +:+ nl)
  ∨ (Py.endswith_nl c = false ∧ d = c +:+ nl).
Proof.
  assert (Hkey : key_of c = key_of d ↔ code_of_cell c = code_of_cell d)
    by (unfold key_of; split; [intros [= Hcode]; exact Hcode | intros ->; reflexivity]).
  rewrite Hkey. unfold code_of_cell. split.
  - destruct (Py.endswith_nl c) eqn:Hc, (Py.endswith_nl d) eqn:Hd; intros Heq.
    + left. exact Heq.
    + right. left. split; [reflexivity|exact Heq].
    + right. right. split; [reflexivity|symmetry; exact Heq].
    + left. apply append_nl_inj. exact Heq.
  - intros [->|[[Hd ->]|[Hc ->]]].
    + reflexivity.
    + rewrite endswith_nl_app, Hd. reflexivity.
    + rewrite endswith_nl_app, Hc. reflexivity.
Qed.

Lemma key_of_collisions_witness :
  @key_of Sample.building (Sample.cell +:+ nl) = @key_of Sample.building Sample.cell
  ∧ @key_of Sample.building (Sample.cell +:+ nl +:+ nl)
    ≠ @key_of Sample.building (Sample.cell +:+ nl).
Proof.
  split.
  - apply key_of_collisions. right. left. split; reflexivity.
  - intros Heq. apply key_of_collisions in Heq as [Heq|[[Hend _]|[Hend _]]].
    + apply (f_equal String.length) in Heq. vm_compute in Heq. discriminate Heq.
    + vm_compute in Hend. discriminate Hend.
    + vm_compute in Hend. discriminate Hend.
Defined.

(** ** A session of cells *)



(** ** The methods on a file system that can fail *)

(** Unfolds the monad of [Fs] and the statements lifted into it. *)
Ltac run_fs :=
  unfold mbind, mret, Fs.W_bind, Fs.W_ret, Fs.try_finally, Fs.os_chdir,
    Fs.io_write, Fs.lift;
  run.

Section FsRun.
Context `{Fs.Host}.

(** [_run_f2py] in one equation. When the cache directory cannot be
    entered the entry point is not called; when the directory the call
    started in cannot be entered again, the [OSError] of the [finally]
    block is what [_run_f2py] raises and the working directory is not put
    back. *)
Lemma Fs_run_f2py_eq argv show v w :
  Fs._run_f2py argv show v w =
  let s := Fs.session w in
  let lib := _lib_dir (self s) in
  let p := f2py_entry argv v s in
  if Fs.can_enter (Fs.fs w) lib then
    let out := Fs.f2py2e_main_on (Fs.fs w) p in
    let r := out.1.1.1 in
    let c := out.1.1.2 in
    let p' := out.1.2 in
    let b := replays r show v in
    let back := Fs.can_enter out.2 (cwd (proc s)) in
    (if back then outcome_of r else Raise (OtherError "OSError" (cwd (proc s))),
     Fs.mkWorld
       {| proc := mkProc (sys_argv (proc s))
                    (if back then cwd (proc s) else cwd p') (files p')
                    (if b then sys_stdout p' +:+ cap_stdout c else sys_stdout p')
                    (if b then sys_stderr p' +:+ cap_stderr c else sys_stderr p');
          self := self s;
          f2py_calls := f2py_calls s ++ [("f2py" :: argv, lib)] |}
       out.2 (Fs.entered w ++ [p]))
  else
    (Raise (OtherError "OSError"
              (if Fs.can_enter (Fs.fs w) (cwd (proc s)) then lib else cwd (proc s))),
     Fs.mkWorld
       {| proc := mkProc (sys_argv (proc s)) (cwd (proc s)) (files (proc s))
                    (sys_stdout p) (sys_stderr (proc s));
          self := self s;
          f2py_calls := f2py_calls s |}
       (Fs.fs w) (Fs.entered w)).
Proof.
  unfold Fs._run_f2py, Fs.f2py_guarded, Fs.f2py_setup, Fs.captured_f2py2e_main,
    f2py_entry, f2py_setup.
  run_fs. destruct (1 <? v); cbn.
  all: destruct (Fs.can_enter (Fs.fs w) (_lib_dir (self (Fs.session w)))); cbn.
  all: try (destruct (Fs.can_enter (Fs.fs w) (cwd (proc (Fs.session w))));
            reflexivity).
  all: destruct (Fs.f2py2e_main_on _ _) as [[[r c] p'] fs']; cbn.
  all: destruct r as [[]|[]]; cbn.
  all: try (destruct show, (2 <? v); cbn).
  all: run_fs.
  all: destruct (Fs.can_enter fs' (cwd (proc (Fs.session w)))); reflexivity.
Qed.

(** C4, as the code has it: however [_run_f2py] ends, [sys.argv] is
    afterwards what it was before the call. The working directory is what
    it was before whenever that directory can be entered when the call
    ends; when it cannot, the [os.chdir] of the [finally] block raises, the
    [OSError] is what [_run_f2py] raises, and the working directory is not
    put back. *)
Theorem _run_f2py_restores_argv_and_cwd argv show v w :
  let r := Fs._run_f2py argv show v w in
  let old := proc (Fs.session w) in
  let new := proc (Fs.session r.2) in
  sys_argv new = sys_argv old
  ∧ (Fs.can_enter (Fs.fs r.2) (cwd old) = true → cwd new = cwd old)
  ∧ (Fs.can_enter (Fs.fs r.2) (cwd old) = false →
     r.1 = Raise (OtherError "OSError" (cwd old))).
Proof.
  cbn zeta. rewrite Fs_run_f2py_eq. cbn zeta.
  destruct (Fs.can_enter (Fs.fs w) (_lib_dir (self (Fs.session w)))); cbn.
  - destruct (Fs.can_enter _ (cwd (proc (Fs.session w)))); cbn;
      repeat split; congruence.
  - repeat split. intros ->. reflexivity.
Qed.


(** X6: whatever its options and whatever the entry point does,
    [f2py_help] leaves [sys.argv] and the magics object as they were and
    enters the entry point at most once; the working directory is what it
    was whenever that directory can be entered when [f2py_help] ends. *)
Theorem f2py_help_restores fc c r l w :
  let w' := (Fs.f2py_help fc c r l w).2 in
  let old := proc (Fs.session w) in
  sys_argv (proc (Fs.session w')) = sys_argv old
  ∧ self (Fs.session w') = self (Fs.session w)
  ∧ (length (Fs.entered w') ≤ S (length (Fs.entered w)))%nat
  ∧ (Fs.can_enter (Fs.fs w') (cwd old) = true →
     cwd (proc (Fs.session w')) = cwd old).
Proof.
  assert (Hrun : ∀ argv show v,
            let w' := (Fs._run_f2py argv show v w).2 in
            sys_argv (proc (Fs.session w')) = sys_argv (proc (Fs.session w))
            ∧ self (Fs.session w') = self (Fs.session w)
            ∧ (length (Fs.entered w') ≤ S (length (Fs.entered w)))%nat
            ∧ (Fs.can_enter (Fs.fs w') (cwd (proc (Fs.session w))) = true →
               cwd (proc (Fs.session w')) = cwd (proc (Fs.session w)))).
  { intros argv show v. cbn zeta. rewrite Fs_run_f2py_eq. cbn zeta.
    destruct (Fs.can_enter (Fs.fs w) (_lib_dir (self (Fs.session w)))); cbn.
    - rewrite length_app. cbn. repeat split; [lia|]. intros ->. reflexivity.
    - repeat split. lia. }
  cbn zeta. unfold Fs.f2py_help.
  destruct fc; [apply Hrun|]. destruct c; [apply Hrun|].
  destruct r; [apply Hrun|].
  destruct l as [x|]; [destruct (decide (x = "")); [|apply Hrun]|];
    cbn; repeat split; lia.
Qed.

End FsRun.

(** C4 as stated fails: the entry point removes the directory the session
    was started in; [_run_f2py] then raises the [OSError] of the [finally]
    block and the process stays in the cache directory. *)
Lemma _run_f2py_stays_in_cache_directory :
  let r := @Fs._run_f2py FsCases.removing ["-m"; "x"; "-c"; "x.f90"] false 0
             FsCases.w0 in
  cwd (proc (Fs.session FsCases.w0)) = "/home/u/work"
  ∧ r.1 = Raise (OtherError "OSError" "/home/u/work")
  ∧ cwd (proc (Fs.session r.2)) = "/home/u/.cache/ipython/fortran"
  ∧ sys_argv (proc (Fs.session r.2)) = ["ipython"].
Proof. repeat split; vm_compute; reflexivity. Qed.

Lemma _run_f2py_restores_argv_and_cwd_witness :
  let r := @Fs._run_f2py (Fs.plain Sample.rejecting) ["-c"; "x.f90"] false 0
             FsCases.w0 in
  sys_argv (proc (Fs.session r.2)) = ["ipython"]
  ∧ cwd (proc (Fs.session r.2)) = "/home/u/work".
Proof.
  intros r.
  destruct (@_run_f2py_restores_argv_and_cwd (Fs.plain Sample.rejecting)
              ["-c"; "x.f90"] false 0 FsCases.w0) as (Hargv & Hcwd & _).
  fold r in Hargv, Hcwd. split.
  - rewrite Hargv. reflexivity.
  - rewrite Hcwd; reflexivity.
Defined.


Lemma f2py_help_restores_witness :
  cwd (proc (Fs.session
               (@Fs.f2py_help (Fs.plain Sample.rejecting) false false true None
                  FsCases.w0).2))
  = "/home/u/work".
Proof.
  destruct (@f2py_help_restores (Fs.plain Sample.rejecting) false false true None
              FsCases.w0) as (_ & _ & _ & Hcwd).
  rewrite Hcwd; reflexivity.
Defined.

Section FsFortran.
Context `{Fs.Host}.

(** [fortran] in one equation: the write, then [_run_f2py], then the
    storing of the key, the loading and the import. *)
Lemma Fs_fortran_eq args cell w :
  Fs.fortran args cell w =
  let s := Fs.session w in
  let lib := _lib_dir (self s) in
  let src := f90_file lib cell in
  if Fs.can_write (Fs.fs w) src then
    let w1 := Fs.mkWorld (io_write src (code_of_cell cell) s).2 (Fs.fs w)
                (Fs.entered w) in
    let r2 := Fs._run_f2py (fortran_argv lib args cell) false (verbosity args) w1 in
    match r2.1 with
    | Ok _ =>
        let s3 := (cache_store (key_of cell) (module_name cell) (Fs.session r2.2)).2 in
        match imp_load_dynamic (module_name cell)
                (module_path lib (so_ext (self s)) cell) (proc s3) with
        | Ok module =>
            ((_import_all module (verbosity args) s3).1,
             Fs.mkWorld (_import_all module (verbosity args) s3).2
               (Fs.fs r2.2) (Fs.entered r2.2))
        | Raise e => (Raise e, Fs.mkWorld s3 (Fs.fs r2.2) (Fs.entered r2.2))
        end
    | Raise e => (Raise e, r2.2)
    end
  else (Raise (OtherError "IOError" src), w).
Proof.
  destruct w as [s0 fs0 ent]. unfold Fs.fortran. run_fs.
  destruct (Fs.can_write fs0 _); [|reflexivity]. cbn.
  destruct (Fs._run_f2py _ _ _ _) as [[[]|e] w2]; cbn; [|reflexivity].
  destruct (imp_load_dynamic _ _ _) as [m|e]; cbn; [|reflexivity].
  destruct (_import_all m _ _) as [r s4]. reflexivity.
Qed.

(** What [fortran] leaves of a world, by the way it went. *)
Lemma Fs_fortran_cases args cell w :
  let s := Fs.session w in
  let lib := _lib_dir (self s) in
  let src := f90_file lib cell in
  let p := driver_entry args cell s in
  let r := Fs.fortran args cell w in
  (Fs.can_write (Fs.fs w) src = false ∧ r = (Raise (OtherError "IOError" src), w))
  ∨ (Fs.can_write (Fs.fs w) src = true
     ∧ Fs.can_enter (Fs.fs w) lib = false
     ∧ (∃ d, r.1 = Raise (OtherError "OSError" d))
     ∧ Fs.entered r.2 = Fs.entered w
     ∧ Fs.fs r.2 = Fs.fs w
     ∧ self (Fs.session r.2) = self s
     ∧ sys_argv (proc (Fs.session r.2)) = sys_argv (proc s)
     ∧ cwd (proc (Fs.session r.2)) = cwd (proc s)
     ∧ files (proc (Fs.session r.2)) = <[src := code_of_cell cell]> (files (proc s)))
  ∨ (Fs.can_write (Fs.fs w) src = true
     ∧ Fs.can_enter (Fs.fs w) lib = true
     ∧ Fs.entered r.2 = Fs.entered w ++ [p]
     ∧ Fs.fs r.2 = (Fs.answer args cell w).2
     ∧ _lib_dir (self (Fs.session r.2)) = lib
     ∧ sys_argv (proc (Fs.session r.2)) = sys_argv (proc s)
     ∧ (Fs.can_enter (Fs.fs r.2) (cwd (proc s)) = true →
        cwd (proc (Fs.session r.2)) = cwd (proc s))
     ∧ (r.1 = Ok tt ↔
        (Fs.answer args cell w).1.1.1 = Ok tt
        ∧ Fs.can_enter (Fs.answer args cell w).2 (cwd (proc s)) = true
        ∧ ∃ module, Fs.loaded args cell w = Ok module)
     ∧ (r.1 = Ok tt →
        _code_cache (self (Fs.session r.2))
        = <[key_of cell := module_name cell]> (_code_cache (self s))
        ∧ ∀ module, Fs.loaded args cell w = Ok module →
            shell_user_ns (self (Fs.session r.2))
            = filter (λ kv, public kv.1) module ∪ shell_user_ns (self s))).
Proof.
  cbn zeta. rewrite Fs_fortran_eq. cbn zeta.
  destruct (Fs.can_write (Fs.fs w) _) eqn:Hw; [|left; split; reflexivity].
  right. rewrite Fs_run_f2py_eq. cbn zeta. cbn [Fs.session Fs.fs Fs.entered].
  change (f2py_entry _ _ (io_write _ _ _).2)
    with (driver_entry args cell (Fs.session w)).
  unfold Fs.loaded, Fs.loading_proc, Fs.answer, Fs.entry_of_cell.
  remember (driver_entry args cell (Fs.session w)) as p eqn:Hp.
  unfold io_write, modify, with_proc. cbn [fst snd proc self f2py_calls files
    sys_argv cwd sys_stdout sys_stderr].
  destruct (Fs.can_enter (Fs.fs w) (_lib_dir (self (Fs.session w)))) eqn:He.
  2:{ left. cbn. repeat split; eauto. }
  right.
  destruct (Fs.f2py2e_main_on (Fs.fs w) p) as [[[r c] p'] fs'] eqn:Hout.
  cbn [fst snd].
  destruct (Fs.can_enter fs' (cwd (proc (Fs.session w)))) eqn:Hback.
  - destruct r as [[]|[]]; cbn.
    + destruct (imp_load_dynamic _ _ _) as [m|e] eqn:Hload; cbn.
      * match goal with
        | |- context [_import_all m ?v ?st] =>
            destruct (_import_all_spec m v st) as (Hr & Hp' & _ & Hcc & Hl & _);
            pose proof (_import_all_ns m v st) as Hns
        end.
        rewrite Hr, Hp', Hcc, Hl, Hns. cbn.
        repeat split; eauto. intros m' [= <-]. reflexivity.
      * repeat split; try discriminate; eauto.
        all: try (intros (_ & _ & m & Hm); discriminate Hm).
        all: try (intros m Hm; discriminate Hm).
    + repeat split; try discriminate; eauto. intros (Hr & _); discriminate Hr.
    + repeat split; try discriminate; eauto. intros (Hr & _); discriminate Hr.
    + repeat split; try discriminate; eauto. intros (Hr & _); discriminate Hr.
  - destruct r as [[]|[]]; cbn; repeat split; try discriminate; eauto.
    all: try (intros Hb; rewrite Hback in Hb; discriminate Hb).
    all: intros (_ & Hb & _); discriminate Hb.
Qed.


(** C1, as the code has it: the cache is written and never read. When a
    request has compiled, its key is in the cache with the module name and
    the entry point was entered for it; the same request issued again, when
    the source file can be written and the cache directory entered again,
    writes the source file again and enters the f2py entry point again,
    with the same arguments; no compilation is skipped. *)
Theorem fortran_writes_and_compiles_again args cell w :
  (Fs.fortran args cell w).1 = Ok tt →
  let lib := _lib_dir (self (Fs.session w)) in
  let src := f90_file lib cell in
  let w1 := (Fs.fortran args cell w).2 in
  let w2 := (Fs.fortran args cell w1).2 in
  _code_cache (self (Fs.session w1)) !! key_of cell = Some (module_name cell)
  ∧ (∃ p1, Fs.entered w1 = Fs.entered w ++ [p1]
           ∧ sys_argv p1 = "f2py" :: fortran_argv lib args cell)
  ∧ (Fs.can_write (Fs.fs w1) src = true → Fs.can_enter (Fs.fs w1) lib = true →
     ∃ p2, Fs.entered w2 = Fs.entered w1 ++ [p2]
           ∧ files p2 = <[src := code_of_cell cell]> (files (proc (Fs.session w1)))
           ∧ sys_argv p2 = "f2py" :: fortran_argv lib args cell
           ∧ cwd p2 = lib).
Proof.
  intros Hok lib src w1 w2.
  pose proof (Fs_fortran_cases args cell w) as Hfirst. cbn zeta in Hfirst.
  fold lib src w1 in Hfirst.
  destruct Hfirst as [(_ & Hr)|[(_ & _ & (d & Hr) & _)
                               |(_ & _ & Hent & _ & Hlib & _ & _ & _ & Hstore)]].
  - rewrite Hr in Hok. discriminate Hok.
  - rewrite Hr in Hok. discriminate Hok.
  - destruct (Hstore Hok) as [Hcache _]. split; [|split].
    + rewrite Hcache. apply lookup_insert_eq.
    + eexists. split; [exact Hent|]. apply driver_entry_argv.
    + intros Hw He.
      pose proof (Fs_fortran_cases args cell w1) as Hsecond. cbn zeta in Hsecond.
      rewrite Hlib in Hsecond. fold src w2 in Hsecond.
      destruct Hsecond as [(Hw' & _)|[(_ & He' & _)|(_ & _ & Hent2 & _)]];
        [congruence|congruence|].
      eexists. split; [exact Hent2|].
      rewrite driver_entry_files, driver_entry_argv, driver_entry_cwd, Hlib.
      repeat split.
Qed.


(** X12: however [fortran] ends, [sys.argv] is afterwards what it was
    before and the cache directory of the magics object is unchanged; the
    working directory is what it was before whenever that directory can be
    entered when [fortran] ends. *)
Theorem fortran_restores_argv_and_cwd args cell w :
  let r := Fs.fortran args cell w in
  let old := proc (Fs.session w) in
  sys_argv (proc (Fs.session r.2)) = sys_argv old
  ∧ _lib_dir (self (Fs.session r.2)) = _lib_dir (self (Fs.session w))
  ∧ (Fs.can_enter (Fs.fs r.2) (cwd old) = true →
     cwd (proc (Fs.session r.2)) = cwd old).
Proof.
  cbn zeta.
  destruct (Fs_fortran_cases args cell w)
    as [(_ & Hr)|[(_ & _ & _ & _ & _ & Hself & Hargv & Hcwd & _)
                 |(_ & _ & _ & _ & Hlib & Hargv & Hcwd & _)]].
  - rewrite Hr. repeat split.
  - rewrite Hself. repeat split; auto.
  - repeat split; assumption.
Qed.

End FsFortran.

(** ** The two embeddings agree when the file system lets everything *)

(** On a file system that allows everything, with an entry point that
    leaves it alone, the methods of [Fs] are the methods of the first
    part; they record in addition the state in which the entry point is
    entered. *)
Lemma Fs_plain_run_f2py (T : Toolchain) argv show v s ent :
  @Fs._run_f2py (Fs.plain T) argv show v (Fs.mkWorld s Fs.permissive ent)
  = ((@_run_f2py T argv show v s).1,
     Fs.mkWorld (@_run_f2py T argv show v s).2 Fs.permissive
       (ent ++ [f2py_entry argv v s])).
Proof.
  rewrite (@Fs_run_f2py_eq (Fs.plain T)), (@_run_f2py_eq T). reflexivity.
Qed.

Lemma Fs_plain_fortran (T : Toolchain) args cell s ent :
  @Fs.fortran (Fs.plain T) args cell (Fs.mkWorld s Fs.permissive ent)
  = ((@fortran T args cell s).1,
     Fs.mkWorld (@fortran T args cell s).2 Fs.permissive
       (ent ++ [@driver_entry T args cell s])).
Proof.
  rewrite (@Fs_fortran_eq (Fs.plain T)). cbn zeta.
  cbn [Fs.session Fs.fs Fs.entered Fs.permissive Fs.can_write].
  rewrite Fs_plain_run_f2py. cbn [fst snd Fs.session Fs.fs Fs.entered].
  change (f2py_entry _ _ (io_write _ _ s).2) with (@driver_entry T args cell s).
  unfold fortran. run.
  destruct (@_run_f2py T _ _ _ _) as [[[]|e] s2]; cbn; [|reflexivity].
  destruct (imp_load_dynamic _ _ _) as [m|e]; reflexivity.
Qed.

(** ** The claims on sample sessions *)



Lemma fortran_writes_and_compiles_again_witness :
  let w1 := (@Fs.fortran (Fs.plain Sample.building) Sample.defaults Sample.cell
               FsCases.w0).2 in
  let w2 := (@Fs.fortran (Fs.plain Sample.building) Sample.defaults Sample.cell
               w1).2 in
  is_Some (_code_cache (self (Fs.session w1)) !! @key_of Sample.building Sample.cell)
  ∧ length (Fs.entered w1) = 1%nat
  ∧ length (Fs.entered w2) = 2%nat.
Proof.
  intros w1 w2.
  destruct (@fortran_writes_and_compiles_again (Fs.plain Sample.building)
              Sample.defaults Sample.cell FsCases.w0)
    as (Hcached & (p1 & Hp1 & _) & Hagain).
  - vm_compute. reflexivity.
  - fold w1 in Hcached, Hp1, Hagain. fold w2 in Hagain.
    destruct Hagain as (p2 & Hp2 & _);
      [vm_compute; reflexivity|vm_compute; reflexivity|].
    split; [eexists; exact Hcached|]. rewrite Hp2, Hp1. split; reflexivity.
Defined.


Lemma fortran_restores_argv_and_cwd_witness :
  let r := @Fs.fortran (Fs.plain Sample.rejecting) Sample.defaults Sample.cell
             FsCases.w0 in
  sys_argv (proc (Fs.session r.2)) = ["ipython"]
  ∧ cwd (proc (Fs.session r.2)) = "/home/u/work".
Proof.
  intros r.
  destruct (@fortran_restores_argv_and_cwd (Fs.plain Sample.rejecting)
              Sample.defaults Sample.cell FsCases.w0) as (Hargv & _ & Hcwd).
  fold r in Hargv, Hcwd. split.
  - rewrite Hargv. reflexivity.
  - rewrite Hcwd; [reflexivity|]. vm_compute. reflexivity.
Defined.

(** ** The names of the summary *)

(** X9: what [_import_all] prints is made of the names the module holds
    that do not start with two underscores, each one once: with a positive
    verbosity and at least one such name it prints the summary with these
    names joined by commas, and otherwise nothing. *)
Theorem _import_all_summary_names (module : gmap string pyobj) v s :
  ∃ names,
    NoDup names
    ∧ (∀ k, k ∈ names ↔ is_Some (module !! k) ∧ public k = true)
    ∧ (0 < v → names ≠ [] →
       sys_stdout (proc (_import_all module v s).2) =
       sys_stdout (proc s)
       +:+ (nl +:+ "Ok. The following fortran objects are ready to use: "
            +:+ Py.join ", " names) +:+ nl)
    ∧ (v ≤ 0 ∨ names = [] →
       sys_stdout (proc (_import_all module v s).2) = sys_stdout (proc s)).
Proof.
  exists (public_names module).
  destruct (_import_all_spec module v s) as (_ & Hp & _).
  rewrite Hp. cbn [sys_stdout]. split; [|split; [|split]].
  - apply NoDup_filter, NoDup_fst_map_to_list.
  - intros k. unfold public_names.
    rewrite list_elem_of_filter, list_elem_of_fmap. split.
    + intros (Hpub & [k' o] & -> & Hin). apply elem_of_map_to_list in Hin.
      split; [eauto|]. cbn in *. destruct (public k'); [reflexivity|contradiction].
    + intros ([o Hk] & Hpub). split; [rewrite Hpub; exact I|].
      exists (k, o). split; [reflexivity|]. apply elem_of_map_to_list. exact Hk.
  - intros Hv Hne. apply Z.ltb_lt in Hv. rewrite Hv, bool_decide_true by done.
    reflexivity.
  - intros [Hv| ->].
    + replace (0 <? v) with false by (symmetry; apply Z.ltb_ge; lia). reflexivity.
    + rewrite andb_false_r. reflexivity.
Qed.

Lemma _import_all_summary_names_witness :
  let m : gmap string pyobj := <["f" := PyFortran "f"]> {["__doc__" := PyStr "doc"]} in
  sys_stdout (proc (_import_all m 1 Sample.st0).2)
  = nl +:+ "Ok. The following fortran objects are ready to use: f" +:+ nl.
Proof.
  intros m.
  destruct (_import_all_summary_names m 1 Sample.st0)
    as (names & Hnd & Hin & Hprint & _).
  assert (Hf : "f" ∈ names)
    by (apply Hin; split; [eexists; reflexivity|reflexivity]).
  assert (Hnames : names = ["f"]).
  { destruct names as [|a names]; [apply elem_of_nil in Hf; contradiction|].
    assert (Ha : a = "f").
    { destruct (Hin a) as [Ha _]. destruct Ha as [[o Ho] Hpub]; [left|].
      destruct (decide (a = "f")) as [->|Hne]; [reflexivity|].
      destruct (decide (a = "__doc__")) as [->|Hne'];
        [discriminate Hpub|].
      unfold m in Ho. rewrite lookup_insert_ne, lookup_singleton_ne in Ho
        by congruence. discriminate Ho. }
    subst a. f_equal. destruct names as [|b names]; [reflexivity|].
    apply NoDup_cons in Hnd as [Hnotin Hnd].
    assert (Hb : b = "f").
    { destruct (Hin b) as [Hb _]. destruct Hb as [[o Ho] Hpub]; [right; left|].
      destruct (decide (b = "f")) as [->|Hne]; [reflexivity|].
      destruct (decide (b = "__doc__")) as [->|Hne'];
        [discriminate Hpub|].
      unfold m in Ho. rewrite lookup_insert_ne, lookup_singleton_ne in Ho
        by congruence. discriminate Ho. }
    subst b. destruct Hnotin. left. }
  subst names. rewrite Hprint; [reflexivity|lia|discriminate].
Defined.
